(** * Kaggle mahjong snapshots to mjai event logs

    A shallow embedding of [mortal/convert_kaggle_dataset.py] and the
    properties of its tile codec, payload extractor, event builders and
    per-table exporter.

    Conventions of the embedding:
    - Python [int] is [Z]; [//] is [Z.div] (both floor);
    - a [dict] read with [.get(k, d)] or [d[k]] is a record whose fields are
      [option]s: [None] is an absent key, [d[k]] on an absent key raises
      [KeyError];
    - numeric JSON fields are integers, so [int(x)] is the identity;
    - a raising computation is a value of [result], and the statements of a
      function body are sequenced in source order, so the first exception
      raised by the source is the error returned here;
    - list indexing follows Python: a negative index counts from the end and
      an index out of range raises [IndexError]. *)

From stdpp Require Import base numbers list strings pretty gmap.

Open Scope string_scope.
Open Scope Z_scope.
Open Scope list_scope.

(** ** Exceptions and the error monad *)

Inductive exn : Type :=
| ValueError (msg : string)
| RuntimeError (msg : string)
| KeyError (key : string)
| IndexError (msg : string)
| TypeError (msg : string)
| OSError (msg : string)
| OperationalError (msg : string).

Inductive result (A : Type) : Type :=
| Ok (a : A)
| Raise (e : exn).
Arguments Ok {A} a.
Arguments Raise {A} e.

Definition bind {A B} (r : result A) (k : A -> result B) : result B :=
  match r with
  | Ok a => k a
  | Raise e => Raise e
  end.

Notation "'try' x <- r ; k" := (bind r (fun x => k))
  (at level 10, x name, r at level 100, k at level 200).
Notation "'try' ' pat <- r ; k" :=
  (bind r (fun x => match x with pat => k end))
  (at level 10, pat pattern, r at level 100, k at level 200).

(** [[f(x) for x in xs]]: the comprehension stops at the first raise. *)
Fixpoint traverse {A B} (f : A -> result B) (xs : list A) : result (list B) :=
  match xs with
  | [] => Ok []
  | x :: rest =>
      try y <- f x;
      try ys <- traverse f rest;
      Ok (y :: ys)
  end.

(** [d[key]] on a record field. *)
Definition getitem {A} (key : string) (field : option A) : result A :=
  match field with
  | Some v => Ok v
  | None => Raise (KeyError key)
  end.

(** [d.get(key, dflt)]. *)
Definition get {A} (field : option A) (dflt : A) : A :=
  match field with
  | Some v => v
  | None => dflt
  end.

(** Python's normalisation of a list index: [None] is out of range. *)
Definition py_index (len : nat) (i : Z) : option nat :=
  if (0 <=? i) && (i <? Z.of_nat len) then Some (Z.to_nat i)
  else if (i <? 0) && (- Z.of_nat len <=? i) then Some (Z.to_nat (Z.of_nat len + i))
  else None.

(** [xs[i]]. *)
Definition list_getitem {A} (xs : list A) (i : Z) : result A :=
  match py_index (length xs) i with
  | Some n =>
      match xs !! n with
      | Some x => Ok x
      | None => Raise (IndexError "list index out of range")
      end
  | None => Raise (IndexError "list index out of range")
  end.

(** [xs[i] = v]. *)
Definition list_setitem {A} (xs : list A) (i : Z) (v : A) : result (list A) :=
  match py_index (length xs) i with
  | Some n => Ok (<[n := v]> xs)
  | None => Raise (IndexError "list assignment index out of range")
  end.

(** The spec's error taxonomy, as the exceptions the source raises. *)
Definition InvalidTileId (e : exn) : Prop :=
  exists msg, e = ValueError msg.
Definition malformed_action_messages : list string :=
  [ "chi action missing target tile";
    "pon action missing target tile";
    "daiminkan missing target tile";
    "shouminkan expects four tiles from actor";
    "ankan expects four tiles" ].
Definition MalformedAction (e : exn) : Prop :=
  exists msg, msg ∈ malformed_action_messages /\ e = RuntimeError msg.
Definition EmptyCategory (e : exn) : Prop :=
  exists table, e = RuntimeError ("table " +:+ table +:+ " is empty").

(** ** Tile codec *)

Definition MJAI_TILES : list string :=
  [ "1m"; "2m"; "3m"; "4m"; "5m"; "6m"; "7m"; "8m"; "9m";
    "1p"; "2p"; "3p"; "4p"; "5p"; "6p"; "7p"; "8p"; "9p";
    "1s"; "2s"; "3s"; "4s"; "5s"; "6s"; "7s"; "8s"; "9s";
    "E"; "S"; "W"; "N"; "P"; "F"; "C" ].

Definition WIND_TO_TILE : gmap Z string :=
  <[0 := "E"]> (<[1 := "S"]> (<[2 := "W"]> (<[3 := "N"]> ∅))).

Definition tile_id_to_mjai (tile_id : Z) : result string :=
  if tile_id <? 0
  then Raise (ValueError ("negative tile id: " +:+ pretty tile_id))
  else
    let tile_type := tile_id / 4 in
    match list_getitem MJAI_TILES tile_type with
    | Ok tile => Ok tile
    | Raise (IndexError _) =>
        Raise (ValueError ("unknown tile id " +:+ pretty tile_id))
    | Raise e => Raise e
    end.

(** ** Data model

    A snapshot is the JSON object of one row.  The per-seat records live
    under the keys ["0"] .. ["3"]. *)

Record SeatRecord : Type := {
  points : option Z;
  PointsReward : option Z
}.

Record Action : Type := {
  tiles : option (list Z);
  who : option (list Z)
}.

Record Snapshot : Type := {
  round_wind : option Z;
  dora_indicators : option (list Z);
  num_honba : option Z;
  num_riichi : option Z;
  kyoku : option Z;
  oya : option Z;
  player_wind : option Z;
  hand_tiles : option (list Z);
  seats : gmap string SeatRecord;
  valid_actions : option (list Action);
  action_idx : option Z
}.

(** An mjai event: the constructor is the ["type"] entry of the dict, its
    arguments are the other entries in insertion order. *)
Inductive Event : Type :=
| StartGame (names : list string)
| StartKyoku (bakaze dora_marker : string) (kyoku honba kyotaku oya : Z)
             (scores : list Z) (tehais : list (list string))
| Tsumo (actor : Z) (pai : string)
| Dahai (actor : Z) (pai : string) (tsumogiri : bool)
| Chi (actor target : Z) (pai : string) (consumed : list string)
| Pon (actor target : Z) (pai : string) (consumed : list string)
| Daiminkan (actor target : Z) (pai : string) (consumed : list string)
| Kakan (actor : Z) (pai : string) (consumed : list string)
| Ankan (actor : Z) (consumed : list string)
| Reach (actor : Z)
| Ryukyoku (deltas : list Z)
| EndKyoku
| EndGame.

(** [event["type"]]. *)
Definition event_type (ev : Event) : string :=
  match ev with
  | StartGame _ => "start_game"
  | StartKyoku _ _ _ _ _ _ _ _ => "start_kyoku"
  | Tsumo _ _ => "tsumo"
  | Dahai _ _ _ => "dahai"
  | Chi _ _ _ _ => "chi"
  | Pon _ _ _ _ => "pon"
  | Daiminkan _ _ _ _ => "daiminkan"
  | Kakan _ _ _ => "kakan"
  | Ankan _ _ => "ankan"
  | Reach _ => "reach"
  | Ryukyoku _ => "ryukyoku"
  | EndKyoku => "end_kyoku"
  | EndGame => "end_game"
  end.

(** [event["pai"]]. *)
Definition event_pai (ev : Event) : result string :=
  match ev with
  | Tsumo _ pai | Dahai _ pai _ | Chi _ _ pai _ | Pon _ _ pai _
  | Daiminkan _ _ pai _ | Kakan _ pai _ => Ok pai
  | _ => Raise (KeyError "pai")
  end.

(** [[str(idx) for idx in range(4)]]. *)
Definition seat_keys : list string := ["0"; "1"; "2"; "3"].

(** ** Helpers *)

(** [(tile, owner) for tile, owner in zip(tiles, who) if tile >= 0]. *)
Definition tiles_from_action (payload : Action) : list (Z * Z) :=
  let tiles' := get (tiles payload) [] in
  let who' := get (who payload) [] in
  filter (fun p : Z * Z => 0 <= p.1) (zip tiles' who').

(** ** Event builders *)

Definition start_game_event : Event :=
  StartGame ["Player0"; "Player1"; "Player2"; "Player3"].

(** [state.get("dora_indicators") or [0]]: an absent key and an empty list
    are both falsy. *)
Definition dora_markers_of (state : Snapshot) : list Z :=
  match dora_indicators state with
  | Some (d :: ds) => d :: ds
  | Some [] | None => [0]
  end.

Definition start_kyoku_event (state : Snapshot) : result Event :=
  let bakaze := get (WIND_TO_TILE !! get (round_wind state) 0) "E" in
  let dora_markers := dora_markers_of state in
  try dora0 <- list_getitem dora_markers 0;
  try dora_marker <- tile_id_to_mjai dora0;
  let honba := get (num_honba state) 0 in
  let kyotaku := get (num_riichi state) 0 in
  let kyoku' := get (kyoku state) 1 in
  try points' <-
    traverse (fun key =>
                try seat <- getitem key (seats state !! key);
                getitem "points" (points seat)) seat_keys;
  let tehais := replicate 4 (replicate 13 "?") in
  let actor := get (player_wind state) 0 in
  try hand_tiles' <- traverse tile_id_to_mjai (get (hand_tiles state) []);
  let concealed := take 13 hand_tiles' in
  let concealed :=
    if (length concealed <? 13)%nat
    then concealed ++ replicate (13 - length concealed) "?"
    else concealed in
  try tehais <- list_setitem tehais actor (take 13 concealed);
  Ok (StartKyoku bakaze dora_marker (Z.max 1 (Z.min 4 kyoku')) honba kyotaku
        (get (oya state) 0) points' tehais).

Definition tsumo_event (state : Snapshot) : result (option Event) :=
  let tiles' := get (hand_tiles state) [] in
  if (length tiles' <=? 13)%nat then Ok None
  else
    let actor := get (player_wind state) 0 in
    try last_tile <- list_getitem tiles' (-1);
    try pai <- tile_id_to_mjai last_tile;
    Ok (Some (Tsumo actor pai)).

(** The loop of [_split_action_tiles] over the pairs, threading the three
    locals [consumed], [pai] and [target]. *)
Fixpoint split_loop (pairs : list (Z * Z)) (actor : Z)
    (consumed : list string) (pai : option string) (target : option Z)
  : result (list string * option string * option Z) :=
  match pairs with
  | [] => Ok (consumed, pai, target)
  | (tile_id, owner) :: rest =>
      try tile <- tile_id_to_mjai tile_id;
      if owner =? actor
      then split_loop rest actor (consumed ++ [tile]) pai target
      else split_loop rest actor consumed (Some tile) (Some owner)
  end.

(** Truthiness of an [Optional[str]]: [None] and [""] are falsy. *)
Definition truthy (pai : option string) : bool :=
  match pai with
  | Some EmptyString | None => false
  | Some _ => true
  end.

Definition _split_action_tiles (action : Action) (actor : Z)
  : result (list string * list string * option Z) :=
  try '(consumed, pai, target) <-
    split_loop (tiles_from_action action) actor [] None None;
  Ok (consumed,
      match pai with
      | Some tile => if truthy pai then [tile] else []
      | None => []
      end,
      target).

(** [state["valid_actions"][state["action_idx"]]]. *)
Definition selected_action (state : Snapshot) : result Action :=
  try actions <- getitem "valid_actions" (valid_actions state);
  try idx <- getitem "action_idx" (action_idx state);
  list_getitem actions idx.

Definition chi_event (state : Snapshot) : result Event :=
  let actor := get (player_wind state) 0 in
  try action <- selected_action state;
  try '(consumed, pai_list, target) <- _split_action_tiles action actor;
  match target, pai_list with
  | Some target', pai :: _ => Ok (Chi actor target' pai (take 2 consumed))
  | _, _ => Raise (RuntimeError "chi action missing target tile")
  end.

Definition pon_event (state : Snapshot) : result Event :=
  let actor := get (player_wind state) 0 in
  try action <- selected_action state;
  try '(consumed, pai_list, target) <- _split_action_tiles action actor;
  match target, pai_list with
  | Some target', pai :: _ => Ok (Pon actor target' pai (take 2 consumed))
  | _, _ => Raise (RuntimeError "pon action missing target tile")
  end.

Definition daiminkan_event (state : Snapshot) : result Event :=
  let actor := get (player_wind state) 0 in
  try action <- selected_action state;
  try '(consumed, pai_list, target) <- _split_action_tiles action actor;
  match target, pai_list with
  | Some target', pai :: _ =>
      let consumed := take 3 consumed in
      Ok (Daiminkan actor target' pai consumed)
  | _, _ => Raise (RuntimeError "daiminkan missing target tile")
  end.

(** [[tile_id_to_mjai(tile) for tile, owner in tiles_from_action(action)
      if owner == actor]]. *)
Definition actor_tiles (action : Action) (actor : Z) : result (list string) :=
  traverse (fun p : Z * Z => tile_id_to_mjai p.1)
           (filter (fun p : Z * Z => p.2 = actor) (tiles_from_action action)).

Definition kakan_event (state : Snapshot) : result Event :=
  let actor := get (player_wind state) 0 in
  try action <- selected_action state;
  try tiles' <- actor_tiles action actor;
  if (length tiles' <? 4)%nat
  then Raise (RuntimeError "shouminkan expects four tiles from actor")
  else
    try pai <- list_getitem tiles' 0;
    Ok (Kakan actor pai (take 3 tiles')).

Definition ankan_event (state : Snapshot) : result Event :=
  let actor := get (player_wind state) 0 in
  try action <- selected_action state;
  try tiles' <- actor_tiles action actor;
  if (length tiles' <? 4)%nat
  then Raise (RuntimeError "ankan expects four tiles")
  else Ok (Ankan actor (take 4 tiles')).

Definition discard_event (state : Snapshot) (tsumogiri_tile : option string)
  : result Event :=
  let actor := get (player_wind state) 0 in
  try action <- selected_action state;
  try tiles' <- getitem "tiles" (tiles action);
  try tile_id <- list_getitem tiles' 0;
  try pai <- tile_id_to_mjai tile_id;
  let tsumogiri :=
    match tsumogiri_tile with
    | Some tile => bool_decide (tile = pai)
    | None => false
    end in
  Ok (Dahai actor pai tsumogiri).

Definition reach_events (state : Snapshot) (tsumogiri_tile : option string)
  : result (list Event) :=
  let actor := get (player_wind state) 0 in
  try dahai <- discard_event state tsumogiri_tile;
  Ok [Reach actor; dahai].

Definition skip_conversion (state : Snapshot) : result (list Event) :=
  Ok [].

(** A Python callable with the number of positional parameters of its
    [def] or [lambda]. *)
Inductive callable : Type :=
| Def1 (name : string) (f : Snapshot -> result (list Event))
| Def2 (f : Snapshot -> option string -> result (list Event)).

(** [builder(payload, tsumogiri_tile)]: a call with two positional
    arguments. *)
Definition call2 (builder : callable) (state : Snapshot)
    (tsumo : option string) : result (list Event) :=
  match builder with
  | Def2 f => f state tsumo
  | Def1 name _ =>
      Raise (TypeError
               (name +:+ "() takes 1 positional argument but 2 were given"))
  end.

Definition singleton (r : result Event) : result (list Event) :=
  try ev <- r; Ok [ev].

(** The dict literal, in insertion order. *)
Definition ACTION_BUILDERS : list (string * callable) :=
  [ ("Skip", Def1 "skip_conversion" skip_conversion);
    ("Discard", Def2 (fun state tsumo => singleton (discard_event state tsumo)));
    ("Chi", Def2 (fun state tsumo => singleton (chi_event state)));
    ("Pon", Def2 (fun state tsumo => singleton (pon_event state)));
    ("DaiMinKan", Def2 (fun state tsumo => singleton (daiminkan_event state)));
    ("ShouMinKan", Def2 (fun state tsumo => singleton (kakan_event state)));
    ("AnKan", Def2 (fun state tsumo => singleton (ankan_event state)));
    ("Riichi", Def2 reach_events) ].

(** [ACTION_BUILDERS[table]]. *)
Fixpoint dict_getitem {V} (d : list (string * V)) (key : string) : result V :=
  match d with
  | [] => Raise (KeyError key)
  | (k, v) :: rest => if String.eqb k key then Ok v else dict_getitem rest key
  end.

Definition ryukyoku_event (state : Snapshot) : result Event :=
  try deltas <-
    traverse (fun key =>
                try seat <- getitem key (seats state !! key);
                Ok (get (PointsReward seat) 0)) seat_keys;
  Ok (Ryukyoku deltas).

Definition tail_events : list Event := [EndKyoku; EndGame].

(** ** Conversion *)

Record TableExportResult : Type := {
  table : string;
  rows : nat;
  output : string
}.

(** The file system the exporter writes to: the directories that exist and
    the text files with their lines. *)
Record World : Type := {
  dirs : gset string;
  files : gmap string (list string)
}.

(** [path.mkdir(parents=True, exist_ok=True)]. *)
Definition ensure_directory (path : string) (w : World) : World :=
  {| dirs := {[ path ]} ∪ dirs w; files := files w |}.

(** [gzip.open(path, "wt")]: the file is created, or truncated. *)
Definition gzip_open (path : string) (w : World) : World :=
  {| dirs := dirs w; files := <[ path := [] ]> (files w) |}.

(** [gz.write(line); gz.write("\n")]. *)
Definition write_line (path : string) (line : string) (w : World) : World :=
  {| dirs := dirs w;
     files := <[ path := get (files w !! path) [] ++ [line] ]> (files w) |}.

Definition ascii_lower (c : Ascii.ascii) : Ascii.ascii :=
  let n := Ascii.nat_of_ascii c in
  if ((65 <=? n) && (n <=? 90))%nat then Ascii.ascii_of_nat (n + 32) else c.

(** [s.lower()] on ASCII text. *)
Fixpoint lower (s : string) : string :=
  match s with
  | EmptyString => EmptyString
  | String c rest => String (ascii_lower c) (lower rest)
  end.

(** The body of the row loop of [convert_table] up to the writes: the
    events of one decoded payload. *)
Definition row_events (table : string) (payload : Snapshot)
  : result (list Event) :=
  try tsumo <- tsumo_event payload;
  try builder <- dict_getitem ACTION_BUILDERS table;
  try start_kyoku <- start_kyoku_event payload;
  let events := [start_game_event; start_kyoku] in
  let events :=
    match tsumo with
    | Some ev => events ++ [ev]
    | None => events
    end in
  try tsumogiri_tile <-
    match tsumo with
    | Some ev => try pai <- event_pai ev; Ok (Some pai)
    | None => Ok None
    end;
  try action_events <- call2 builder payload tsumogiri_tile;
  let events := events ++ action_events in
  try ryukyoku <- ryukyoku_event payload;
  let events := events ++ [ryukyoku] in
  Ok (events ++ tail_events).

Section Exporter.

(** The stored blob, its decoding
    [json.loads(gzip.decompress(blob).decode("utf-8"))] and the
    serialisation [json.dumps(event, ensure_ascii=False)] are taken as
    given. *)
Variable Blob : Type.
Variable decompress_loads : Blob -> result Snapshot.
Variable dumps : Event -> string.

(** [cursor.execute(f"SELECT id, data FROM {table}"); cursor.fetchall()],
    on a database that maps each table to its rows [(id, data)]. *)
Definition select_all (db : gmap string (list (Z * Blob))) (table : string)
  : result (list (Z * Blob)) :=
  match db !! table with
  | Some rows' => Ok rows'
  | None => Raise (OperationalError ("no such table: " +:+ table))
  end.

(** The [try] block around the decoding of one row. *)
Definition load_row (table : string) (identifier : Z) (blob : Blob)
  : result Snapshot :=
  match decompress_loads blob with
  | Raise (OSError _) =>
      Raise (RuntimeError ("failed to decompress row " +:+ pretty identifier
                           +:+ " in " +:+ table))
  | r => r
  end.

(** The [for identifier, blob in rows] loop inside the [with] block. *)
Fixpoint export_rows (table output_path : string) (rows' : list (Z * Blob))
    (w : World) : result unit * World :=
  match rows' with
  | [] => (Ok tt, w)
  | (identifier, blob) :: rest =>
      match load_row table identifier blob with
      | Raise e => (Raise e, w)
      | Ok payload =>
          match row_events table payload with
          | Raise e => (Raise e, w)
          | Ok events =>
              let w' :=
                foldl (fun w0 ev => write_line output_path (dumps ev) w0)
                      w events in
              export_rows table output_path rest w'
          end
      end
  end.

Definition convert_table (db : gmap string (list (Z * Blob)))
    (table' : string)
    (output_dir : string) (w : World) : result TableExportResult * World :=
  match select_all db table' with
  | Raise e => (Raise e, w)
  | Ok rows' =>
      match rows' with
      | [] => (Raise (RuntimeError ("table " +:+ table' +:+ " is empty")), w)
      | _ :: _ =>
          let w := ensure_directory output_dir w in
          let output_path :=
            output_dir +:+ "/" +:+ lower table' +:+ ".json.gz" in
          let w := gzip_open output_path w in
          match export_rows table' output_path rows' w with
          | (Raise e, w) => (Raise e, w)
          | (Ok _, w) =>
              (Ok {| table := table'; rows := length rows';
                     output := output_path |}, w)
          end
      end
  end.

End Exporter.

(** ** Reference descriptions

    The definitions below follow the wording of the specification and are
    the other side of the comparison theorems. *)

(** A tile id of the 0..135 domain. *)
Definition decodable (tile_id : Z) : Prop := 0 <= tile_id <= 135.

(** The extractor as the specification words it: keep the pairs with a
    non-negative tile id and decode each of them; the actor's tiles, in
    source order, are [consumed]; the last pair of another owner, when there
    is one, gives [claimed] and [claimed_from_seat]. *)
Definition split_action_tiles_spec (action : Action) (actor : Z)
  : result (list string * list string * option Z) :=
  let kept :=
    filter (fun p : Z * Z => 0 <= p.1)
           (zip (get (tiles action) []) (get (who action) [])) in
  try _ <- traverse tile_id_to_mjai (map fst kept);
  try consumed <-
    traverse tile_id_to_mjai
             (map fst (filter (fun p : Z * Z => p.2 = actor) kept));
  match last (filter (fun p : Z * Z => p.2 <> actor) kept) with
  | Some (tile_id, owner) =>
      try claimed <- tile_id_to_mjai tile_id;
      Ok (consumed, [claimed], Some owner)
  | None => Ok (consumed, [], None)
  end.

(** The action entry reduced to what [tiles_from_action] pairs: the tile ids
    and owners of the paired, non-negative entries. *)
Definition paired_action (action : Action) : Action :=
  {| tiles := Some (map fst (tiles_from_action action));
     who := Some (map snd (tiles_from_action action)) |}.

(** The round-wind lookup: the four winds, East for anything else. *)
Definition bakaze_of (round_wind' : option Z) : string :=
  match round_wind' with
  | Some 1 => "S"
  | Some 2 => "W"
  | Some 3 => "N"
  | Some _ | None => "E"
  end.

(** The first dora indicator, tile id 0 when the list is absent or empty. *)
Definition first_dora_or_zero (st : Snapshot) : Z :=
  match dora_indicators st with
  | Some (d :: _) => d
  | Some [] | None => 0
  end.

Definition clamp_1_4 (k : Z) : Z :=
  if k <? 1 then 1 else if 4 <? k then 4 else k.

Definition unknown_hand : list string := replicate 13 "?".

(** The first 13 symbols, right-padded with ["?"] to 13 slots. *)
Definition pad13 (decoded : list string) : list string :=
  take 13 decoded ++ replicate (13 - length decoded) "?".

(** The event types each category contributes between the self-draw and the
    round end, in order. *)
Definition category_event_types : gmap string (list string) :=
  list_to_map
    [ ("Skip", []);
      ("Discard", ["dahai"]);
      ("Chi", ["chi"]);
      ("Pon", ["pon"]);
      ("DaiMinKan", ["daiminkan"]);
      ("ShouMinKan", ["kakan"]);
      ("AnKan", ["ankan"]);
      ("Riichi", ["reach"; "dahai"]) ].

(** ** Sample inputs *)

Definition seat_record (score : Z) : SeatRecord :=
  {| points := Some score; PointsReward := None |}.

Definition four_seats : gmap string SeatRecord :=
  list_to_map [ ("0", seat_record 25000); ("1", seat_record 25000);
                ("2", seat_record 25000); ("3", seat_record 25000) ].

Definition entry (tiles' who' : list Z) : Action :=
  {| tiles := Some tiles'; who := Some who' |}.

(** A row with the given hand, seat wind and single action entry. *)
Definition sample_row (hand : list Z) (seat : Z) (action : Action) : Snapshot :=
  {| round_wind := Some 0;
     dora_indicators := Some [52];
     num_honba := Some 0;
     num_riichi := Some 0;
     kyoku := Some 1;
     oya := Some 0;
     player_wind := Some seat;
     hand_tiles := Some hand;
     seats := four_seats;
     valid_actions := Some [action];
     action_idx := Some 0 |}.

Definition hand13 : list Z := [0; 4; 12; 16; 20; 24; 28; 36; 40; 44; 72; 76; 80].

(** Fourteen tiles, the drawn one is tile id 8. *)
Definition hand14 : list Z := hand13 ++ [8].

(** Fourteen entries, the last one outside the 0..135 domain. *)
Definition undecodable_draw_row : Snapshot :=
  sample_row (hand13 ++ [136]) 2 (entry [8] [2]).

(** A ShouMinKan entry whose four actor-owned tiles are of four kinds. *)
Definition mixed_quad_row : Snapshot :=
  sample_row hand13 0 (entry [0; 4; 8; 12] [0; 0; 0; 0]).

(** A quad entry with four actor-owned tiles, the last one outside the
    0..135 domain. *)
Definition undecodable_quad_row : Snapshot :=
  sample_row hand13 0 (entry [0; 1; 2; 136] [0; 0; 0; 0]).

(** A well-formed added quad: four copies of one kind, owned by the actor. *)
Definition quad_row : Snapshot :=
  sample_row hand13 0 (entry [0; 1; 2; 3] [0; 0; 0; 0]).

(** A call of the tile 9 of seat 1 with the actor's tiles 5 and 13. *)
Definition call_row : Snapshot :=
  sample_row hand13 0 (entry [5; 9; -1; 13] [0; 1; 0; 0]).

(** A call entry without any tile of another seat. *)
Definition no_claim_row : Snapshot :=
  sample_row hand13 0 (entry [5; 13] [0; 0]).

(** A database whose Chi table has no rows, with blobs that hold nothing. *)
Definition empty_chi_database : gmap string (list (Z * unit)) :=
  {[ "Chi" := [] ]}.

Definition empty_world : World := {| dirs := ∅; files := ∅ |}.

(** The suit letter of the numbered tiles: man, pin, sou. *)
Definition suit_letter (suit : Z) : string :=
  if suit =? 0 then "m" else if suit =? 1 then "p" else "s".

(** What a call event is built from: the selected entry, the decoded tiles
    of the actor in source order, and the last kept pair of another seat
    with its decoded tile. *)
Definition call_parts (st : Snapshot) (own : list string) (owner : Z)
    (pai : string) : Prop :=
  let actor := get (player_wind st) 0 in
  exists action tile_id,
    selected_action st = Ok action
    /\ actor_tiles action actor = Ok own
    /\ last (filter (fun p : Z * Z => p.2 <> actor) (tiles_from_action action))
       = Some (tile_id, owner)
    /\ tile_id_to_mjai tile_id = Ok pai
    /\ owner <> actor.

(** A call entry without any tile of the actor. *)
Definition bare_claim_row : Snapshot :=
  sample_row hand13 0 (entry [9] [1]).


(** A discard entry whose first tile is the unused-slot marker. *)
Definition negative_discard_row : Snapshot :=
  sample_row hand13 2 (entry [-1; 8] [2; 2]).

(** An entry with tiles but without the [who] key. *)
Definition no_who_row : Snapshot :=
  sample_row hand13 0 {| tiles := Some [0; 1; 2; 3]; who := None |}.

(** The events of a row with a reach declaration put in front of its first
    dahai event. *)
Fixpoint insert_reach (actor : Z) (events : list Event) : list Event :=
  match events with
  | [] => []
  | ev :: rest =>
      if String.eqb (event_type ev) "dahai"
      then Reach actor :: ev :: rest
      else ev :: insert_reach actor rest
  end.

(** The seven table names whose builder takes two arguments. *)
Definition convertible_tables : list string :=
  ["Discard"; "Chi"; "Pon"; "DaiMinKan"; "ShouMinKan"; "AnKan"; "Riichi"].

(** ** Driver *)

Section Driver.

Variable Blob : Type.
Variable decompress_loads : Blob -> result Snapshot.
Variable dumps : Event -> string.




End Driver.




(** The snapshot with its [hand_tiles] entry replaced. *)
Definition with_hand_tiles (st : Snapshot) (hand : list Z) : Snapshot :=
  {| round_wind := round_wind st;
     dora_indicators := dora_indicators st;
     num_honba := num_honba st;
     num_riichi := num_riichi st;
     kyoku := kyoku st;
     oya := oya st;
     player_wind := player_wind st;
     hand_tiles := Some hand;
     seats := seats st;
     valid_actions := valid_actions st;
     action_idx := action_idx st |}.

(** * Properties *)

(** ** The error monad *)

Lemma bind_Ok_inv {A B} (r : result A) (k : A -> result B) (b : B) :
  bind r k = Ok b -> exists a, r = Ok a /\ k a = Ok b.
Proof. destruct r as [a|e]; simpl; [eauto | discriminate]. Qed.

(** Break a successful sequence of binds into its successful steps. *)
Ltac inv_bind H :=
  repeat match type of H with
  | bind ?r ?k = Ok ?b =>
      let a := fresh "v" in
      let Ha := fresh "Hstep" in
      apply bind_Ok_inv in H as (a & Ha & H); cbv beta in H
  | Ok _ = Ok _ => injection H as H
  | Raise _ = Ok _ => discriminate H
  end.

Lemma traverse_Forall2 {A B} (f : A -> result B) (xs : list A) (ys : list B) :
  traverse f xs = Ok ys <-> Forall2 (fun x y => f x = Ok y) xs ys.
Proof.
  revert ys. induction xs as [|x xs IH]; intros ys; simpl.
  - split.
    + intros [= <-]. constructor.
    + intros H. inversion H. reflexivity.
  - split.
    + intros H. inv_bind H. subst ys. constructor; [assumption|].
      apply IH. assumption.
    + intros H. inversion H as [|? y ? ys' Hy Hys]; subst.
      rewrite Hy. simpl. apply IH in Hys. rewrite Hys. reflexivity.
Qed.

Lemma traverse_length {A B} (f : A -> result B) (xs : list A) (ys : list B) :
  traverse f xs = Ok ys -> length ys = length xs.
Proof.
  rewrite traverse_Forall2. intros H. symmetry.
  apply (Forall2_length _ _ _ H).
Qed.

Lemma traverse_total {A B} (f : A -> result B) (xs : list A) :
  Forall (fun x => exists y, f x = Ok y) xs -> exists ys, traverse f xs = Ok ys.
Proof.
  induction 1 as [|x xs [y Hy] _ [ys Hys]]; simpl.
  - eauto.
  - rewrite Hy, Hys. simpl. eauto.
Qed.

(** ** Python list indexing *)

Lemma py_index_nonneg (len : nat) (i : Z) :
  0 <= i < Z.of_nat len -> py_index len i = Some (Z.to_nat i).
Proof.
  intros [H0 H1]. unfold py_index.
  destruct (Z.leb_spec 0 i); [|lia].
  destruct (Z.ltb_spec i (Z.of_nat len)); [|lia].
  reflexivity.
Qed.

Lemma py_index_too_big (len : nat) (i : Z) :
  Z.of_nat len <= i -> py_index len i = None.
Proof.
  intros H. unfold py_index.
  destruct (Z.leb_spec 0 i); [|lia].
  destruct (Z.ltb_spec i (Z.of_nat len)); [lia|].
  destruct (Z.ltb_spec i 0); [lia|].
  reflexivity.
Qed.

Lemma list_getitem_0 {A} (x : A) (xs : list A) : list_getitem (x :: xs) 0 = Ok x.
Proof.
  unfold list_getitem. rewrite py_index_nonneg by (simpl; lia). reflexivity.
Qed.

Lemma list_getitem_last {A} (xs : list A) (x : A) :
  last xs = Some x -> list_getitem xs (-1) = Ok x.
Proof.
  intros Hlast. unfold list_getitem, py_index.
  assert (Hlen : (0 < length xs)%nat).
  { destruct xs; [discriminate | simpl; lia]. }
  destruct (Z.leb_spec 0 (-1)); [lia|]. simpl andb. cbv iota.
  destruct (Z.ltb_spec (-1) 0); [|lia].
  destruct (Z.leb_spec (- Z.of_nat (length xs)) (-1)); [|lia].
  simpl andb. cbv iota.
  replace (Z.to_nat (Z.of_nat (length xs) + -1)) with (pred (length xs)) by lia.
  rewrite <- last_lookup. rewrite Hlast. reflexivity.
Qed.

(** ** Tile codec *)

Lemma MJAI_TILES_length : length MJAI_TILES = 34%nat.
Proof. reflexivity. Qed.

Lemma MJAI_TILES_NoDup : NoDup MJAI_TILES.
Proof. apply (bool_decide_unpack (NoDup MJAI_TILES)). vm_compute. exact I. Qed.

Lemma tile_id_to_mjai_kind (n : Z) :
  0 <= n -> n / 4 < 34 ->
  exists tile, MJAI_TILES !! Z.to_nat (n / 4) = Some tile
               /\ tile_id_to_mjai n = Ok tile.
Proof.
  intros H0 H1.
  assert (Hq : 0 <= n / 4) by (apply Z.div_pos; lia).
  destruct (lookup_lt_is_Some_2 MJAI_TILES (Z.to_nat (n / 4))) as [tile Ht].
  { rewrite MJAI_TILES_length. lia. }
  exists tile. split; [exact Ht|].
  unfold tile_id_to_mjai.
  destruct (Z.ltb_spec n 0); [lia|].
  unfold list_getitem.
  rewrite py_index_nonneg by (rewrite MJAI_TILES_length; lia).
  rewrite Ht. reflexivity.
Qed.


Lemma div4_lt_34 (n : Z) : n / 4 < 34 <-> n <= 135.
Proof.
  pose proof (Z.div_mod n 4 ltac:(lia)) as Hdm.
  pose proof (Z.mod_pos_bound n 4 ltac:(lia)) as Hmod.
  lia.
Qed.

Lemma tile_id_to_mjai_invalid (n : Z) :
  n < 0 \/ 34 <= n / 4 -> exists msg, tile_id_to_mjai n = Raise (ValueError msg).
Proof.
  intros H. unfold tile_id_to_mjai.
  destruct (Z.ltb_spec n 0) as [Hneg|Hpos]; [eauto|].
  destruct H as [H|H]; [lia|].
  unfold list_getitem.
  rewrite py_index_too_big by (rewrite MJAI_TILES_length; lia).
  eauto.
Qed.

Lemma tile_id_to_mjai_Ok_inv (n : Z) (tile : string) :
  tile_id_to_mjai n = Ok tile ->
  0 <= n <= 135 /\ MJAI_TILES !! Z.to_nat (n / 4) = Some tile.
Proof.
  intros H.
  destruct (Z.lt_ge_cases n 0) as [Hneg|Hpos].
  { destruct (tile_id_to_mjai_invalid n) as [msg Hm]; [lia | congruence]. }
  destruct (Z.lt_ge_cases (n / 4) 34) as [Hlt|Hge].
  - destruct (tile_id_to_mjai_kind n Hpos Hlt) as (tile' & Hlook & Hdec).
    assert (tile' = tile) by congruence. subst tile'.
    split; [|exact Hlook].
    apply div4_lt_34 in Hlt. lia.
  - destruct (tile_id_to_mjai_invalid n) as [msg Hm]; [lia | congruence].
Qed.

Lemma tile_id_to_mjai_valid (n : Z) :
  0 <= n <= 135 -> exists tile, tile_id_to_mjai n = Ok tile.
Proof.
  intros [H0 H1].
  destruct (tile_id_to_mjai_kind n) as (tile & _ & Hdec); [lia| |eauto].
  apply div4_lt_34. lia.
Qed.

Lemma tile_id_to_mjai_nonempty (n : Z) (tile : string) :
  tile_id_to_mjai n = Ok tile -> tile <> "".
Proof.
  intros H. apply tile_id_to_mjai_Ok_inv in H as [_ Hlook].
  assert (Hall : Forall (fun s => s <> "") MJAI_TILES).
  { unfold MJAI_TILES. repeat (constructor; [discriminate|]). constructor. }
  rewrite Forall_lookup in Hall. exact (Hall _ _ Hlook).
Qed.

(** C2. There are 34 distinct canonical symbols, every tile id in 0..135
    decodes to one of them,
    the four copies [4k], [4k+1], [4k+2], [4k+3] of a kind [k] in 0..33
    decode to the same symbol, and every tile id that is negative or whose
    quotient by 4 is at least 34 is rejected with the invalid-tile-id error
    ([ValueError]). *)
Theorem tile_codec_range :
  length MJAI_TILES = 34%nat
  /\ NoDup MJAI_TILES
  /\ (forall n, 0 <= n <= 135 ->
        exists tile, tile_id_to_mjai n = Ok tile /\ tile ∈ MJAI_TILES)
  /\ (forall k, 0 <= k <= 33 ->
        tile_id_to_mjai (4 * k) = tile_id_to_mjai (4 * k + 1)
        /\ tile_id_to_mjai (4 * k + 1) = tile_id_to_mjai (4 * k + 2)
        /\ tile_id_to_mjai (4 * k + 2) = tile_id_to_mjai (4 * k + 3))
  /\ (forall n, n < 0 \/ 34 <= n / 4 ->
        exists e, tile_id_to_mjai n = Raise e /\ InvalidTileId e).
Proof.
  split; [reflexivity|]. split; [exact MJAI_TILES_NoDup|]. split; [|split].
  - intros n Hn.
    destruct (tile_id_to_mjai_valid n Hn) as [tile Hdec].
    exists tile. split; [exact Hdec|].
    apply tile_id_to_mjai_Ok_inv in Hdec as [_ Hlook].
    apply list_elem_of_lookup. eauto.
  - intros k Hk.
    assert (Hcopy : forall j, 0 <= j < 4 ->
              tile_id_to_mjai (4 * k + j) = tile_id_to_mjai (4 * k)).
    { intros j Hj.
      assert (Hq : (4 * k + j) / 4 = k).
      { symmetry. apply (Z.div_unique _ 4 k j); lia. }
      assert (Hq0 : (4 * k) / 4 = k).
      { symmetry. apply (Z.div_unique _ 4 k 0); lia. }
      destruct (tile_id_to_mjai_kind (4 * k + j)) as (t1 & Hl1 & ->);
        [lia | lia |].
      destruct (tile_id_to_mjai_kind (4 * k)) as (t0 & Hl0 & ->);
        [lia | lia |].
      rewrite Hq in Hl1. rewrite Hq0 in Hl0. congruence. }
    rewrite (Hcopy 1), (Hcopy 2), (Hcopy 3) by lia. auto.
  - intros n Hn.
    destruct (tile_id_to_mjai_invalid n Hn) as [msg Hm].
    exists (ValueError msg). split; [exact Hm|]. exists msg. reflexivity.
Qed.

Lemma tile_codec_range_witness :
  (exists tile, tile_id_to_mjai 135 = Ok tile /\ tile ∈ MJAI_TILES)
  /\ tile_id_to_mjai (4 * 33) = tile_id_to_mjai (4 * 33 + 1)
  /\ (exists e, tile_id_to_mjai 136 = Raise e /\ InvalidTileId e)
  /\ (exists e, tile_id_to_mjai (-1) = Raise e /\ InvalidTileId e).
Proof.
  destruct tile_codec_range as (_ & _ & Hin & Hcopies & Hout).
  split; [apply (Hin 135); lia|].
  split; [apply (Hcopies 33); lia|].
  split; [apply (Hout 136); right; vm_compute; discriminate|].
  apply (Hout (-1)); left; lia.
Defined.

(** ** Payload extractor *)

Lemma split_loop_spec (pairs : list (Z * Z)) (actor : Z) :
  forall (consumed : list string) (pai : option string) (target : option Z),
  split_loop pairs actor consumed pai target =
  (try _ <- traverse tile_id_to_mjai (map fst pairs);
   try own <-
     traverse tile_id_to_mjai
              (map fst (filter (fun p : Z * Z => p.2 = actor) pairs));
   match last (filter (fun p : Z * Z => p.2 <> actor) pairs) with
   | Some (tile_id, owner) =>
       try claimed <- tile_id_to_mjai tile_id;
       Ok (consumed ++ own, Some claimed, Some owner)
   | None => Ok (consumed ++ own, pai, target)
   end).
Proof.
  induction pairs as [|[tile_id owner] rest IH]; intros consumed pai target.
  - simpl. rewrite app_nil_r. reflexivity.
  - cbn [split_loop map fst traverse].
    destruct (tile_id_to_mjai tile_id) as [tile|e] eqn:Hdec;
      [|reflexivity].
    cbn [bind]. rewrite !filter_cons. cbn [snd].
    destruct (Z.eqb_spec owner actor) as [Hown|Hext].
    + rewrite decide_True by exact Hown.
      rewrite decide_False by (intros Hne; exact (Hne Hown)).
      rewrite IH. cbn [map fst traverse]. rewrite Hdec. cbn [bind].
      destruct (traverse tile_id_to_mjai (map fst rest)) as [all|e];
        [|reflexivity].
      cbn [bind].
      destruct (traverse tile_id_to_mjai
                  (map fst (filter (fun p : Z * Z => p.2 = actor) rest)))
        as [own|e]; [|reflexivity].
      cbn [bind]. rewrite <- !app_assoc. reflexivity.
    + rewrite decide_False by exact Hext.
      rewrite decide_True by exact Hext.
      rewrite IH. rewrite last_cons.
      destruct (traverse tile_id_to_mjai (map fst rest)) as [all|e];
        [|reflexivity].
      cbn [bind].
      destruct (traverse tile_id_to_mjai
                  (map fst (filter (fun p : Z * Z => p.2 = actor) rest)))
        as [own|e]; [|reflexivity].
      cbn [bind].
      destruct (last (filter (fun p : Z * Z => p.2 <> actor) rest))
        as [[tile_id' owner']|]; [reflexivity|].
      rewrite Hdec. reflexivity.
Qed.

Lemma split_action_tiles_refines (action : Action) (actor : Z) :
  _split_action_tiles action actor = split_action_tiles_spec action actor.
Proof.
  unfold _split_action_tiles, split_action_tiles_spec, tiles_from_action.
  rewrite split_loop_spec.
  set (kept := filter (fun p : Z * Z => 0 <= p.1)
                      (zip (get (tiles action) []) (get (who action) []))).
  destruct (traverse tile_id_to_mjai (map fst kept)) as [all|e];
    [|reflexivity].
  cbn [bind].
  destruct (traverse tile_id_to_mjai
              (map fst (filter (fun p : Z * Z => p.2 = actor) kept)))
    as [own|e]; [|reflexivity].
  cbn [bind].
  destruct (last (filter (fun p : Z * Z => p.2 <> actor) kept))
    as [[tile_id owner]|]; [|reflexivity].
  destruct (tile_id_to_mjai tile_id) as [claimed|e] eqn:Hdec;
    [|reflexivity].
  cbn [bind app].
  apply tile_id_to_mjai_nonempty in Hdec.
  destruct claimed as [|c claimed]; [contradiction|reflexivity].
Qed.

(** C3. [_split_action_tiles] is the extractor the specification
    describes: it walks the zipped [(tile_id, owner)] pairs, skips the pairs
    with a negative tile id, decodes every other pair, collects the actor's
    tiles in source order as [consumed] and reports the last pair of another
    owner as [claimed] with its owner as [claimed_from_seat]; on tiles
    [5, 9, -1, 13] with owners [0, 1, 0, 0] and actor 0 it returns
    consumed = [decode 5; decode 13], claimed = [decode 9] and seat 1. *)
Theorem split_action_tiles_correct :
  (forall action actor,
     _split_action_tiles action actor = split_action_tiles_spec action actor)
  /\ (exists d5 d9 d13,
        tile_id_to_mjai 5 = Ok d5 /\ tile_id_to_mjai 9 = Ok d9
        /\ tile_id_to_mjai 13 = Ok d13
        /\ _split_action_tiles
             {| tiles := Some [5; 9; -1; 13]; who := Some [0; 1; 0; 0] |} 0
           = Ok ([d5; d13], [d9], Some 1)).
Proof.
  split.
  - exact split_action_tiles_refines.
  - exists "2m", "3m", "4m". repeat split; reflexivity.
Qed.

Lemma tiles_from_action_nonneg (action : Action) :
  Forall (fun p : Z * Z => 0 <= p.1) (tiles_from_action action).
Proof.
  apply Forall_forall. intros p Hp. unfold tiles_from_action in Hp.
  apply list_elem_of_filter in Hp as [Hp _]. exact Hp.
Qed.

Lemma filter_Forall_id {A} (P : A -> Prop) `{!forall x, Decision (P x)}
    (l : list A) :
  Forall P l -> filter P l = l.
Proof.
  induction 1 as [|x l Hx _ IH]; [reflexivity|].
  rewrite filter_cons, decide_True by exact Hx. rewrite IH. reflexivity.
Qed.

Lemma tiles_from_action_paired (action : Action) :
  tiles_from_action (paired_action action) = tiles_from_action action.
Proof.
  unfold tiles_from_action at 1. unfold paired_action. cbn [tiles who get].
  rewrite zip_fst_snd.
  apply filter_Forall_id, tiles_from_action_nonneg.
Qed.

(** The five call builders read the action entry through
    [tiles_from_action] only. *)
Lemma call_builders_read_pairs (st st' : Snapshot) (a a' : Action) :
  player_wind st = player_wind st' ->
  selected_action st = Ok a ->
  selected_action st' = Ok a' ->
  tiles_from_action a = tiles_from_action a' ->
  chi_event st = chi_event st'
  /\ pon_event st = pon_event st'
  /\ daiminkan_event st = daiminkan_event st'
  /\ kakan_event st = kakan_event st'
  /\ ankan_event st = ankan_event st'.
Proof.
  intros Hwind Ha Ha' Hpairs.
  unfold chi_event, pon_event, daiminkan_event, kakan_event, ankan_event.
  rewrite Ha, Ha', Hwind. cbn [bind].
  unfold _split_action_tiles, actor_tiles. rewrite Hpairs.
  repeat split; reflexivity.
Qed.

(** C10. [tiles_from_action] is total and pairs the [tiles] and [who]
    entries only up to the shorter of the two lengths: its result is the
    non-negative pairs of the two lists cut to that length, the entries of
    the longer list beyond it do not influence the result, and the builders
    that go through it (chi, pon, daiminkan, kakan, ankan) build the same
    event from an action entry and from its paired, non-negative entries
    alone. *)
Theorem tiles_from_action_unequal_lengths :
  (forall payload,
     let ts := get (tiles payload) [] in
     let ws := get (who payload) [] in
     let n := (length ts `min` length ws)%nat in
     tiles_from_action payload
     = filter (fun p : Z * Z => 0 <= p.1) (zip (take n ts) (take n ws))
     /\ (length (tiles_from_action payload) <= n)%nat
     /\ (forall tile owner,
           (tile, owner) ∈ tiles_from_action payload <->
           0 <= tile
           /\ exists i, (i < n)%nat /\ ts !! i = Some tile /\ ws !! i = Some owner))
  /\ (forall ts ws surplus,
        length ts = length ws ->
        tiles_from_action {| tiles := Some (ts ++ surplus); who := Some ws |}
        = tiles_from_action {| tiles := Some ts; who := Some ws |}
        /\ tiles_from_action {| tiles := Some ts; who := Some (ws ++ surplus) |}
           = tiles_from_action {| tiles := Some ts; who := Some ws |})
  /\ (forall st st' action,
        selected_action st = Ok action ->
        selected_action st' = Ok (paired_action action) ->
        player_wind st = player_wind st' ->
        chi_event st = chi_event st'
        /\ pon_event st = pon_event st'
        /\ daiminkan_event st = daiminkan_event st'
        /\ kakan_event st = kakan_event st'
        /\ ankan_event st = ankan_event st').
Proof.
  split; [|split].
  - intros payload ts ws n. split; [|split].
    + unfold tiles_from_action. fold ts ws.
      rewrite zip_with_take_both' by (subst n; lia). reflexivity.
    + unfold tiles_from_action. fold ts ws.
      etransitivity; [apply length_filter|].
      rewrite length_zip_with. subst n. lia.
    + intros tile owner. unfold tiles_from_action. fold ts ws.
      rewrite list_elem_of_filter. cbn [fst].
      split.
      * intros [Hnonneg Hin]. split; [exact Hnonneg|].
        apply list_elem_of_lookup in Hin as [i Hi].
        apply lookup_zip_Some in Hi as [Ht Hw].
        exists i. split; [|split; assumption].
        apply lookup_lt_Some in Ht. apply lookup_lt_Some in Hw.
        subst n. lia.
      * intros [Hnonneg (i & _ & Ht & Hw)]. split; [exact Hnonneg|].
        apply list_elem_of_lookup. exists i.
        apply lookup_zip_Some. split; assumption.
  - intros ts ws surplus Hlen. unfold tiles_from_action. cbn [tiles who get].
    split.
    + rewrite zip_with_app_l. rewrite Hlen, take_ge, drop_ge by lia.
      rewrite zip_with_nil_r, app_nil_r. reflexivity.
    + rewrite zip_with_app_r. rewrite <- Hlen, take_ge, drop_ge by lia.
      rewrite zip_with_nil_l, app_nil_r. reflexivity.
  - intros st st' action Ha Ha' Hwind.
    apply (call_builders_read_pairs st st' action (paired_action action));
      try assumption.
    symmetry. apply tiles_from_action_paired.
Qed.

(** ** Self-draw *)

(** C5, as written, fails: a hand of 14 entries whose last entry is not a
    tile id has more than 13 entries, yet the builder returns no event (it
    raises [ValueError]), so "an event if and only if more than 13 entries"
    does not hold for it. *)
Lemma tsumo_event_long_hand_without_event :
  ~ ((exists ev, tsumo_event undecodable_draw_row = Ok (Some ev))
     <-> (13 < length (get (hand_tiles undecodable_draw_row) []))%nat).
Proof.
  intros [_ Hlong].
  destruct Hlong as [ev Hev]; [simpl; lia|].
  vm_compute in Hev. discriminate Hev.
Qed.

(** C5, amended. The self-draw builder returns the no-event sentinel exactly
    when [hand_tiles] has at most 13 entries.  With more than 13 entries it
    returns an event when the last entry is a tile id of 0..135 and raises
    the invalid-tile-id error otherwise.  A returned event is a tsumo whose
    [pai] is the decoding of the last entry of [hand_tiles] and whose
    [actor] is the seat-wind field (0 when absent). *)
Theorem tsumo_event_gating (st : Snapshot) :
  let hand := get (hand_tiles st) [] in
  let actor := get (player_wind st) 0 in
  (tsumo_event st = Ok None <-> (length hand <= 13)%nat)
  /\ ((13 < length hand)%nat ->
      exists drawn, last hand = Some drawn
        /\ (decodable drawn ->
            exists pai, tile_id_to_mjai drawn = Ok pai
                        /\ tsumo_event st = Ok (Some (Tsumo actor pai)))
        /\ (~ decodable drawn ->
            exists e, tsumo_event st = Raise e /\ InvalidTileId e))
  /\ (forall ev, tsumo_event st = Ok (Some ev) ->
        (13 < length hand)%nat
        /\ exists drawn pai, last hand = Some drawn
             /\ tile_id_to_mjai drawn = Ok pai /\ ev = Tsumo actor pai).
Proof.
  intros hand actor. unfold tsumo_event. fold hand actor.
  destruct (Nat.leb_spec (length hand) 13) as [Hshort|Hlong].
  - split; [tauto|]. split; [lia|]. intros ev [=].
  - assert (Hlast : exists drawn, last hand = Some drawn).
    { destruct (last hand) as [d|] eqn:Hl; [eauto|].
      apply last_None in Hl. rewrite Hl in Hlong. simpl in Hlong. lia. }
    destruct Hlast as [drawn Hdrawn].
    rewrite (list_getitem_last hand drawn Hdrawn). cbn [bind].
    split; [|split].
    + split; [|lia]. destruct (tile_id_to_mjai drawn); discriminate.
    + intros _. exists drawn. split; [exact Hdrawn|]. split.
      * intros Hdec. destruct (tile_id_to_mjai_valid drawn Hdec) as [pai Hpai].
        exists pai. rewrite Hpai. split; reflexivity.
      * intros Hbad.
        destruct (tile_id_to_mjai_invalid drawn) as [msg Hmsg].
        { unfold decodable in Hbad.
          destruct (Z.lt_ge_cases drawn 0) as [?|?]; [left; assumption|].
          right. destruct (Z.lt_ge_cases (drawn / 4) 34) as [Hq|Hq]; [|lia].
          apply div4_lt_34 in Hq. lia. }
        exists (ValueError msg). rewrite Hmsg. split; [reflexivity|].
        exists msg. reflexivity.
    + intros ev Hev. split; [exact Hlong|].
      destruct (tile_id_to_mjai drawn) as [pai|e] eqn:Hpai;
        [|discriminate Hev].
      injection Hev as <-. exists drawn, pai. auto.
Qed.

Lemma tsumo_event_gating_witness :
  tsumo_event (sample_row hand13 2 (entry [8] [2])) = Ok None
  /\ exists drawn, last hand14 = Some drawn
       /\ exists pai, tile_id_to_mjai drawn = Ok pai
            /\ tsumo_event (sample_row hand14 2 (entry [8] [2]))
               = Ok (Some (Tsumo 2 pai)).
Proof.
  split.
  - apply (tsumo_event_gating (sample_row hand13 2 (entry [8] [2]))).
    simpl. lia.
  - destruct (tsumo_event_gating (sample_row hand14 2 (entry [8] [2])))
      as (_ & Hlong & _).
    destruct Hlong as (drawn & Hlast & Hok & _); [simpl; lia|].
    exists drawn. split; [exact Hlast|].
    apply Hok. injection Hlast as <-. unfold decodable. lia.
Defined.

(** ** Call builders *)

Lemma kakan_event_fields (st : Snapshot) (ev : Event) :
  kakan_event st = Ok ev ->
  exists action t0 t1 t2 t3 more,
    selected_action st = Ok action
    /\ actor_tiles action (get (player_wind st) 0)
       = Ok (t0 :: t1 :: t2 :: t3 :: more)
    /\ ev = Kakan (get (player_wind st) 0) t0 [t0; t1; t2].
Proof.
  unfold kakan_event. cbv zeta. intros H.
  apply bind_Ok_inv in H as (action & Haction & H).
  apply bind_Ok_inv in H as (tiles' & Htiles & H).
  destruct (Nat.ltb_spec (length tiles') 4) as [Hshort|Hlong];
    [discriminate H|].
  destruct tiles' as [|t0 [|t1 [|t2 [|t3 more]]]]; simpl in Hlong; try lia.
  rewrite list_getitem_0 in H. cbn [bind take] in H.
  injection H as <-.
  exists action, t0, t1, t2, t3, more. auto.
Qed.

(** C1 (defect in the code). On a ShouMinKan row whose action entry holds the
    four actor-owned tiles 0, 4, 8, 12 (decoded "1m", "2m", "3m", "4m"),
    the kakan event has [consumed] equal to the first three decoded tiles,
    but its [pai] is the decoded first tile "1m", not the decoded 4th tile
    "4m". *)
Theorem kakan_event_pai_is_first_tile :
  actor_tiles (entry [0; 4; 8; 12] [0; 0; 0; 0]) 0
  = Ok ["1m"; "2m"; "3m"; "4m"]
  /\ kakan_event mixed_quad_row = Ok (Kakan 0 "1m" ["1m"; "2m"; "3m"])
  /\ kakan_event mixed_quad_row <> Ok (Kakan 0 "4m" ["1m"; "2m"; "3m"]).
Proof.
  split; [reflexivity|]. split; [reflexivity|].
  vm_compute. discriminate.
Qed.

Lemma Forall_filter_keep {A} (P Q : A -> Prop) `{!forall x, Decision (Q x)}
    (l : list A) :
  Forall P l -> Forall P (filter Q l).
Proof.
  rewrite !Forall_forall. intros Hall x Hx.
  apply list_elem_of_filter in Hx as [_ Hx]. apply Hall. exact Hx.
Qed.

Lemma Forall_decodable_traverse (ids : list Z) :
  Forall decodable ids -> exists syms, traverse tile_id_to_mjai ids = Ok syms.
Proof.
  intros H. apply traverse_total.
  eapply Forall_impl; [exact H|]. intros n Hn.
  apply tile_id_to_mjai_valid. exact Hn.
Qed.

Lemma actor_tiles_decodable (action : Action) (actor : Z) :
  Forall (fun p : Z * Z => decodable p.1)
         (filter (fun p : Z * Z => p.2 = actor) (tiles_from_action action)) ->
  exists syms,
    actor_tiles action actor = Ok syms
    /\ length syms
       = length (filter (fun p : Z * Z => p.2 = actor)
                        (tiles_from_action action)).
Proof.
  intros H. unfold actor_tiles.
  destruct (traverse_total (fun p : Z * Z => tile_id_to_mjai p.1)
              (filter (fun p : Z * Z => p.2 = actor) (tiles_from_action action)))
    as [syms Hsyms].
  { eapply Forall_impl; [exact H|]. intros p Hp.
    apply tile_id_to_mjai_valid. exact Hp. }
  exists syms. split; [exact Hsyms|].
  apply traverse_length in Hsyms. exact Hsyms.
Qed.

(** With every paired tile decodable, the extractor succeeds, and it reports
    a claimed tile exactly when some pair belongs to another seat. *)
Lemma split_action_tiles_decodable (action : Action) (actor : Z) :
  Forall (fun p : Z * Z => decodable p.1) (tiles_from_action action) ->
  exists consumed,
    match filter (fun p : Z * Z => p.2 <> actor) (tiles_from_action action) with
    | [] => _split_action_tiles action actor = Ok (consumed, [], None)
    | _ :: _ =>
        exists claimed owner,
          _split_action_tiles action actor
          = Ok (consumed, [claimed], Some owner)
    end.
Proof.
  intros Hall. rewrite split_action_tiles_refines.
  unfold split_action_tiles_spec. fold (tiles_from_action action).
  set (kept := tiles_from_action action) in *.
  destruct (Forall_decodable_traverse (map fst kept)) as [all Hdec].
  { apply Forall_fmap. exact Hall. }
  rewrite Hdec. cbn [bind].
  destruct (Forall_decodable_traverse
              (map fst (filter (fun p : Z * Z => p.2 = actor) kept)))
    as [own Hown].
  { apply Forall_fmap. apply Forall_filter_keep. exact Hall. }
  rewrite Hown. cbn [bind]. exists own.
  destruct (filter (fun p : Z * Z => p.2 <> actor) kept) as [|p ext] eqn:Hext.
  - reflexivity.
  - destruct (last (p :: ext)) as [[tile_id owner]|] eqn:Hlast.
    + assert (Hin : (tile_id, owner) ∈ kept).
      { apply last_Some_elem_of in Hlast. rewrite <- Hext in Hlast.
        apply list_elem_of_filter in Hlast as [_ Hin]. exact Hin. }
      rewrite Forall_forall in Hall. specialize (Hall _ Hin). cbn [fst] in Hall.
      destruct (tile_id_to_mjai_valid tile_id Hall) as [claimed Hclaimed].
      rewrite Hclaimed. cbn [bind]. eauto.
    + apply last_None in Hlast. discriminate Hlast.
Qed.

(** C7, as written, fails: the entry of [undecodable_quad_row] holds four
    actor-owned tiles, yet neither quad builder succeeds, and the error is
    the invalid-tile-id one, not the malformed-action one. *)
Lemma quad_builders_fail_on_four_actor_tiles :
  Nat.le 4 (length (filter (fun p : Z * Z => p.2 = 0)
                           (tiles_from_action
                              (entry [0; 1; 2; 136] [0; 0; 0; 0]))))
  /\ selected_action undecodable_quad_row
     = Ok (entry [0; 1; 2; 136] [0; 0; 0; 0])
  /\ ~ (exists ev, kakan_event undecodable_quad_row = Ok ev)
  /\ ~ (exists ev, ankan_event undecodable_quad_row = Ok ev)
  /\ ~ (exists e, kakan_event undecodable_quad_row = Raise e
                  /\ MalformedAction e).
Proof.
  split; [vm_compute; lia|]. split; [reflexivity|].
  split; [|split].
  - intros [ev Hev]. vm_compute in Hev. discriminate Hev.
  - intros [ev Hev]. vm_compute in Hev. discriminate Hev.
  - intros (e & He & msg & _ & ->). vm_compute in He. discriminate He.
Qed.

(** C7, amended. For a present action entry: when every actor-owned tile id
    that [tiles_from_action] keeps is in 0..135, the ShouMinKan and AnKan
    builders raise the malformed-action error ([RuntimeError]) if the entry
    has fewer than 4 actor-owned tiles and succeed if it has at least 4;
    when every tile id that [tiles_from_action] keeps is in 0..135, the Chi,
    Pon and DaiMinKan builders raise the malformed-action error if no kept
    tile is owned by a seat other than the actor and succeed if one is. *)
Theorem call_builders_minimum_tiles (st : Snapshot) (action : Action) :
  selected_action st = Ok action ->
  let actor := get (player_wind st) 0 in
  let pairs := tiles_from_action action in
  let own := filter (fun p : Z * Z => p.2 = actor) pairs in
  let external := filter (fun p : Z * Z => p.2 <> actor) pairs in
  (Forall (fun p : Z * Z => decodable p.1) own ->
     ((length own < 4)%nat ->
        (exists e, kakan_event st = Raise e /\ MalformedAction e)
        /\ (exists e, ankan_event st = Raise e /\ MalformedAction e))
     /\ ((4 <= length own)%nat ->
           (exists ev, kakan_event st = Ok ev)
           /\ (exists ev, ankan_event st = Ok ev)))
  /\ (Forall (fun p : Z * Z => decodable p.1) pairs ->
        (external = [] ->
           (exists e, chi_event st = Raise e /\ MalformedAction e)
           /\ (exists e, pon_event st = Raise e /\ MalformedAction e)
           /\ (exists e, daiminkan_event st = Raise e /\ MalformedAction e))
        /\ (external <> [] ->
              (exists ev, chi_event st = Ok ev)
              /\ (exists ev, pon_event st = Ok ev)
              /\ (exists ev, daiminkan_event st = Ok ev))).
Proof.
  intros Haction actor pairs own external. split.
  - intros Hdec.
    destruct (actor_tiles_decodable action actor Hdec) as (syms & Hsyms & Hlen).
    fold pairs in Hlen. fold own in Hlen.
    unfold kakan_event, ankan_event. fold actor.
    rewrite Haction. cbn [bind]. rewrite Hsyms. cbn [bind].
    split.
    + intros Hshort.
      destruct (Nat.ltb_spec (length syms) 4) as [_|Hge]; [|lia].
      split; eexists; (split; [reflexivity|]); eexists;
        (split; [|reflexivity]); unfold malformed_action_messages;
        repeat constructor.
    + intros Hlong.
      destruct (Nat.ltb_spec (length syms) 4) as [Hlt|_]; [lia|].
      split; [|eauto].
      destruct syms as [|t0 syms']; [simpl in Hlen; lia|].
      rewrite list_getitem_0. cbn [bind]. eauto.
  - intros Hdec.
    destruct (split_action_tiles_decodable action actor Hdec) as [consumed Hs].
    fold pairs in Hs. fold external in Hs.
    unfold chi_event, pon_event, daiminkan_event. fold actor.
    rewrite Haction. cbn [bind].
    split.
    + intros Hnone. rewrite Hnone in Hs. rewrite Hs. cbn [bind].
      repeat split; eexists; (split; [reflexivity|]); eexists;
        (split; [|reflexivity]); unfold malformed_action_messages;
        repeat constructor.
    + intros Hsome.
      destruct external as [|p ext]; [contradiction|].
      destruct Hs as (claimed & owner & Hs). rewrite Hs. cbn [bind].
      repeat split; eexists; reflexivity.
Qed.

Lemma call_builders_minimum_tiles_witness :
  ((exists ev, kakan_event quad_row = Ok ev)
   /\ (exists ev, ankan_event quad_row = Ok ev))
  /\ ((exists e, kakan_event no_claim_row = Raise e /\ MalformedAction e)
      /\ (exists e, ankan_event no_claim_row = Raise e /\ MalformedAction e))
  /\ ((exists ev, chi_event call_row = Ok ev)
      /\ (exists ev, pon_event call_row = Ok ev)
      /\ (exists ev, daiminkan_event call_row = Ok ev))
  /\ ((exists e, chi_event no_claim_row = Raise e /\ MalformedAction e)
      /\ (exists e, pon_event no_claim_row = Raise e /\ MalformedAction e)
      /\ (exists e, daiminkan_event no_claim_row = Raise e
                    /\ MalformedAction e)).
Proof.
  split; [|split; [|split]].
  - apply (call_builders_minimum_tiles quad_row
             (entry [0; 1; 2; 3] [0; 0; 0; 0]) eq_refl).
    + vm_compute. repeat constructor; discriminate.
    + vm_compute. lia.
  - apply (call_builders_minimum_tiles no_claim_row
             (entry [5; 13] [0; 0]) eq_refl).
    + vm_compute. repeat constructor; discriminate.
    + vm_compute. lia.
  - apply (call_builders_minimum_tiles call_row
             (entry [5; 9; -1; 13] [0; 1; 0; 0]) eq_refl).
    + vm_compute. repeat constructor; discriminate.
    + vm_compute. discriminate.
  - apply (call_builders_minimum_tiles no_claim_row
             (entry [5; 13] [0; 0]) eq_refl).
    + vm_compute. repeat constructor; discriminate.
    + vm_compute. reflexivity.
Defined.

(** ** Round start *)

Lemma bakaze_lookup (round_wind' : option Z) :
  get (WIND_TO_TILE !! get round_wind' 0) "E" = bakaze_of round_wind'.
Proof.
  destruct round_wind' as [w|]; [|reflexivity]. cbn [get].
  unfold WIND_TO_TILE.
  destruct (decide (w = 0)) as [->|H0]; [reflexivity|].
  destruct (decide (w = 1)) as [->|H1]; [reflexivity|].
  destruct (decide (w = 2)) as [->|H2]; [reflexivity|].
  destruct (decide (w = 3)) as [->|H3]; [reflexivity|].
  rewrite !lookup_insert_ne, lookup_empty by congruence.
  destruct w as [|[[p|p|]|[p|p|]|]|p]; try reflexivity; congruence.
Qed.

Lemma clamp_max_min (k : Z) : Z.max 1 (Z.min 4 k) = clamp_1_4 k.
Proof.
  unfold clamp_1_4.
  destruct (Z.ltb_spec k 1); [lia|].
  destruct (Z.ltb_spec 4 k); lia.
Qed.

Lemma clamp_1_4_range (k : Z) :
  1 <= clamp_1_4 k <= 4 /\ (1 <= k <= 4 -> clamp_1_4 k = k).
Proof.
  unfold clamp_1_4.
  destruct (Z.ltb_spec k 1); [lia|].
  destruct (Z.ltb_spec 4 k); lia.
Qed.

Lemma concealed_pad13 (decoded : list string) :
  take 13 (if (length (take 13 decoded) <? 13)%nat
           then take 13 decoded
                ++ replicate (13 - length (take 13 decoded)) "?"
           else take 13 decoded)
  = pad13 decoded.
Proof.
  unfold pad13. rewrite length_take.
  destruct (Nat.ltb_spec (13 `min` length decoded) 13) as [Hshort|Hfull].
  - replace (13 `min` length decoded)%nat with (length decoded) by lia.
    apply take_ge. rewrite length_app, length_take, length_replicate. lia.
  - replace (13 - length decoded)%nat with 0%nat by lia.
    cbn [replicate]. rewrite app_nil_r. apply take_ge.
    rewrite length_take. lia.
Qed.

Lemma pad13_length (decoded : list string) : length (pad13 decoded) = 13%nat.
Proof.
  unfold pad13. rewrite length_app, length_take, length_replicate. lia.
Qed.

Lemma py_index_Some (len : nat) (i : Z) (pos : nat) :
  py_index len i = Some pos ->
  (pos < len)%nat
  /\ (0 <= i -> pos = Z.to_nat i)
  /\ (i < 0 -> Z.of_nat pos = Z.of_nat len + i).
Proof.
  unfold py_index.
  destruct (Z.leb_spec 0 i) as [Hnn|Hneg];
    destruct (Z.ltb_spec i (Z.of_nat len)) as [Hlt|Hge]; cbn [andb].
  - intros [= <-]. lia.
  - destruct (Z.ltb_spec i 0); [lia|]. cbn [andb]. discriminate.
  - destruct (Z.ltb_spec i 0); [|lia].
    destruct (Z.leb_spec (- Z.of_nat len) i); cbn [andb];
      [intros [= <-]; lia | discriminate].
  - lia.
Qed.

(** C9. The round-start event of a snapshot has [kyoku] clamped into 1..4,
    [honba] and [kyotaku] copied from the snapshot, [bakaze] looked up from
    [round_wind] with East as the default, [dora_marker] decoded from the
    first dora indicator (tile id 0 when the list is absent or empty),
    [scores] equal to the points of the seat records "0" .. "3" in that
    order and [tehais] equal to four hands of 13 slots, all of them thirteen
    "?" except the hand at the actor's seat, which is the first 13 decoded
    hand tiles right-padded with "?".  The actor's seat is the seat-wind
    field used as a list index (a value of 0..3 is the seat itself). *)
Theorem start_kyoku_event_fields (st : Snapshot) (ev : Event) :
  start_kyoku_event st = Ok ev ->
  let actor := get (player_wind st) 0 in
  exists dora_marker scores decoded tehais,
    ev = StartKyoku (bakaze_of (round_wind st)) dora_marker
           (clamp_1_4 (get (kyoku st) 1))
           (get (num_honba st) 0) (get (num_riichi st) 0) (get (oya st) 0)
           scores tehais
    /\ 1 <= clamp_1_4 (get (kyoku st) 1) <= 4
    /\ (1 <= get (kyoku st) 1 <= 4 ->
        clamp_1_4 (get (kyoku st) 1) = get (kyoku st) 1)
    /\ tile_id_to_mjai (first_dora_or_zero st) = Ok dora_marker
    /\ Forall2 (fun key score =>
                  exists seat, seats st !! key = Some seat
                               /\ points seat = Some score)
               ["0"; "1"; "2"; "3"] scores
    /\ traverse tile_id_to_mjai (get (hand_tiles st) []) = Ok decoded
    /\ length tehais = 4%nat
    /\ Forall (fun hand => length hand = 13%nat) tehais
    /\ exists pos,
         py_index 4 actor = Some pos
         /\ (0 <= actor -> pos = Z.to_nat actor)
         /\ tehais !! pos = Some (pad13 decoded)
         /\ forall seat, (seat < 4)%nat -> seat <> pos ->
              tehais !! seat = Some unknown_hand.
Proof.
  intros H actor. unfold start_kyoku_event in H. cbv zeta in H.
  fold actor in H.
  apply bind_Ok_inv in H as (dora0 & Hdora0 & H).
  apply bind_Ok_inv in H as (dora_marker & Hdora & H).
  apply bind_Ok_inv in H as (scores & Hscores & H).
  apply bind_Ok_inv in H as (decoded & Hdecoded & H).
  apply bind_Ok_inv in H as (tehais & Htehais & H).
  injection H as <-.
  rewrite bakaze_lookup, clamp_max_min.
  rewrite concealed_pad13 in Htehais.
  exists dora_marker, scores, decoded, tehais.
  split; [reflexivity|].
  split; [apply clamp_1_4_range|].
  split; [apply clamp_1_4_range|].
  split.
  { replace (first_dora_or_zero st) with dora0; [exact Hdora|].
    unfold dora_markers_of in Hdora0. unfold first_dora_or_zero.
    destruct (dora_indicators st) as [[|d ds]|];
      rewrite list_getitem_0 in Hdora0; congruence. }
  split.
  { apply traverse_Forall2 in Hscores.
    eapply Forall2_impl; [exact Hscores|].
    intros key score Hkey. cbv beta in Hkey.
    apply bind_Ok_inv in Hkey as (seat & Hseat & Hpoints).
    exists seat.
    destruct (seats st !! key) as [seat'|]; [|discriminate Hseat].
    injection Hseat as ->. split; [reflexivity|].
    destruct (points seat) as [p|]; [|discriminate Hpoints].
    injection Hpoints as ->. reflexivity. }
  split; [exact Hdecoded|].
  unfold list_setitem in Htehais.
  rewrite length_replicate in Htehais.
  destruct (py_index 4 actor) as [pos|] eqn:Hpos; [|discriminate Htehais].
  injection Htehais as <-.
  destruct (py_index_Some _ _ _ Hpos) as (Hlt & Hnonneg & _).
  split; [rewrite length_insert; reflexivity|].
  split.
  { apply Forall_insert.
    - repeat constructor.
    - apply pad13_length. }
  exists pos. split; [reflexivity|]. split; [exact Hnonneg|]. split.
  - apply list_lookup_insert_eq. simpl. exact Hlt.
  - intros seat Hseat Hne.
    rewrite list_lookup_insert_ne by congruence.
    destruct seat as [|[|[|[|seat]]]]; try reflexivity. lia.
Qed.

Lemma start_kyoku_event_fields_witness :
  exists ev,
    start_kyoku_event (sample_row hand13 2 (entry [8] [2])) = Ok ev
    /\ exists dora_marker scores tehais,
         ev = StartKyoku "E" dora_marker 1 0 0 0 scores tehais
         /\ tehais !! 2%nat = Some (pad13 ["1m"; "2m"; "4m"; "5m"; "6m"; "7m";
                                          "8m"; "1p"; "2p"; "3p"; "1s"; "2s";
                                          "3s"]).
Proof.
  eexists. split; [reflexivity|].
  destruct (start_kyoku_event_fields
              (sample_row hand13 2 (entry [8] [2])) _ eq_refl)
    as (dora_marker & scores & decoded & tehais & Hev & _ & _ & _ & _
        & Hdecoded & _ & _ & pos & Hpos & _ & Hhand & _).
  exists dora_marker, scores, tehais. split; [exact Hev|].
  injection Hpos as <-. injection Hdecoded as <-. exact Hhand.
Defined.

(** ** Shapes of the built events *)

Lemma start_kyoku_event_type (st : Snapshot) (ev : Event) :
  start_kyoku_event st = Ok ev -> event_type ev = "start_kyoku".
Proof.
  unfold start_kyoku_event. cbv zeta. intros H.
  apply bind_Ok_inv in H as (dora0 & _ & H).
  apply bind_Ok_inv in H as (dora_marker & _ & H).
  apply bind_Ok_inv in H as (scores & _ & H).
  apply bind_Ok_inv in H as (decoded & _ & H).
  apply bind_Ok_inv in H as (tehais & _ & H).
  injection H as <-. reflexivity.
Qed.

Lemma ryukyoku_event_type (st : Snapshot) (ev : Event) :
  ryukyoku_event st = Ok ev -> event_type ev = "ryukyoku".
Proof.
  unfold ryukyoku_event. intros H.
  apply bind_Ok_inv in H as (deltas & _ & H).
  injection H as <-. reflexivity.
Qed.

Lemma tsumo_event_Some_inv (st : Snapshot) (ev : Event) :
  tsumo_event st = Ok (Some ev) ->
  (13 < length (get (hand_tiles st) []))%nat
  /\ exists drawn pai,
       last (get (hand_tiles st) []) = Some drawn
       /\ tile_id_to_mjai drawn = Ok pai
       /\ ev = Tsumo (get (player_wind st) 0) pai.
Proof.
  unfold tsumo_event. cbv zeta.
  destruct (Nat.leb_spec (length (get (hand_tiles st) [])) 13)
    as [Hshort|Hlong]; [discriminate|].
  intros H. split; [exact Hlong|].
  destruct (last (get (hand_tiles st) [])) as [drawn|] eqn:Hlast.
  - rewrite (list_getitem_last _ _ Hlast) in H. cbn [bind] in H.
    destruct (tile_id_to_mjai drawn) as [pai|e] eqn:Hpai; [|discriminate H].
    injection H as <-. eauto.
  - apply last_None in Hlast. rewrite Hlast in Hlong. simpl in Hlong. lia.
Qed.

Lemma tsumo_event_None_inv (st : Snapshot) :
  tsumo_event st = Ok None -> (length (get (hand_tiles st) []) <= 13)%nat.
Proof.
  unfold tsumo_event. cbv zeta.
  destruct (Nat.leb_spec (length (get (hand_tiles st) [])) 13)
    as [Hshort|Hlong]; [intros _; exact Hshort|].
  intros H.
  destruct (list_getitem (get (hand_tiles st) []) (-1)) as [drawn|e];
    [|discriminate H].
  cbn [bind] in H.
  destruct (tile_id_to_mjai drawn); discriminate H.
Qed.

Lemma discard_event_inv (st : Snapshot) (tsumogiri_tile : option string)
    (ev : Event) :
  discard_event st tsumogiri_tile = Ok ev ->
  exists action tiles' tile_id pai,
    selected_action st = Ok action
    /\ tiles action = Some tiles'
    /\ list_getitem tiles' 0 = Ok tile_id
    /\ tile_id_to_mjai tile_id = Ok pai
    /\ ev = Dahai (get (player_wind st) 0) pai
              match tsumogiri_tile with
              | Some tile => bool_decide (tile = pai)
              | None => false
              end.
Proof.
  unfold discard_event. cbv zeta. intros H.
  apply bind_Ok_inv in H as (action & Haction & H).
  apply bind_Ok_inv in H as (tiles' & Htiles & H).
  apply bind_Ok_inv in H as (tile_id & Htile & H).
  apply bind_Ok_inv in H as (pai & Hpai & H).
  injection H as <-.
  exists action, tiles', tile_id, pai.
  destruct (tiles action) as [ts|]; [|discriminate Htiles].
  injection Htiles as ->. auto.
Qed.

Lemma singleton_inv (r : result Event) (evs : list Event) :
  singleton r = Ok evs -> exists ev, r = Ok ev /\ evs = [ev].
Proof.
  unfold singleton. intros H.
  apply bind_Ok_inv in H as (ev & Hev & H). injection H as <-. eauto.
Qed.

Lemma chi_event_type (st : Snapshot) (ev : Event) :
  chi_event st = Ok ev -> event_type ev = "chi".
Proof.
  unfold chi_event. cbv zeta. intros H.
  apply bind_Ok_inv in H as (action & _ & H).
  apply bind_Ok_inv in H as ([[consumed pai_list] target] & _ & H).
  destruct target as [t|]; [|discriminate H].
  destruct pai_list as [|pai rest]; [discriminate H|].
  injection H as <-. reflexivity.
Qed.

Lemma pon_event_type (st : Snapshot) (ev : Event) :
  pon_event st = Ok ev -> event_type ev = "pon".
Proof.
  unfold pon_event. cbv zeta. intros H.
  apply bind_Ok_inv in H as (action & _ & H).
  apply bind_Ok_inv in H as ([[consumed pai_list] target] & _ & H).
  destruct target as [t|]; [|discriminate H].
  destruct pai_list as [|pai rest]; [discriminate H|].
  injection H as <-. reflexivity.
Qed.

Lemma daiminkan_event_type (st : Snapshot) (ev : Event) :
  daiminkan_event st = Ok ev -> event_type ev = "daiminkan".
Proof.
  unfold daiminkan_event. cbv zeta. intros H.
  apply bind_Ok_inv in H as (action & _ & H).
  apply bind_Ok_inv in H as ([[consumed pai_list] target] & _ & H).
  destruct target as [t|]; [|discriminate H].
  destruct pai_list as [|pai rest]; [discriminate H|].
  injection H as <-. reflexivity.
Qed.

Lemma kakan_event_type (st : Snapshot) (ev : Event) :
  kakan_event st = Ok ev -> event_type ev = "kakan".
Proof.
  intros H. apply kakan_event_fields in H as (a & t0 & t1 & t2 & t3 & more
                                                & _ & _ & ->).
  reflexivity.
Qed.

Lemma ankan_event_type (st : Snapshot) (ev : Event) :
  ankan_event st = Ok ev -> event_type ev = "ankan".
Proof.
  unfold ankan_event. cbv zeta. intros H.
  apply bind_Ok_inv in H as (action & _ & H).
  apply bind_Ok_inv in H as (tiles' & _ & H).
  destruct (length tiles' <? 4)%nat; [discriminate H|].
  injection H as <-. reflexivity.
Qed.

Lemma discard_event_type (st : Snapshot) (tile : option string) (ev : Event) :
  discard_event st tile = Ok ev -> event_type ev = "dahai".
Proof.
  intros H.
  apply discard_event_inv in H as (a & ts & id & pai & _ & _ & _ & _ & ->).
  reflexivity.
Qed.

(** ** One row *)

(** Every successful dispatch yields the event types of the category. *)
Lemma ACTION_BUILDERS_types (table' : string) (builder : callable)
    (payload : Snapshot) (tile : option string) (evs : list Event) :
  dict_getitem ACTION_BUILDERS table' = Ok builder ->
  call2 builder payload tile = Ok evs ->
  category_event_types !! table' = Some (map event_type evs).
Proof.
  unfold ACTION_BUILDERS. cbn [dict_getitem].
  repeat match goal with
  | |- context [String.eqb ?k table'] =>
      destruct (String.eqb_spec k table') as [<-|_]
  end; intros [= <-]; cbn [call2]; intros Hcall; try discriminate Hcall.
  - apply singleton_inv in Hcall as (ev & Hev & ->).
    apply discard_event_type in Hev. cbn [map]. rewrite Hev. reflexivity.
  - apply singleton_inv in Hcall as (ev & Hev & ->).
    apply chi_event_type in Hev. cbn [map]. rewrite Hev. reflexivity.
  - apply singleton_inv in Hcall as (ev & Hev & ->).
    apply pon_event_type in Hev. cbn [map]. rewrite Hev. reflexivity.
  - apply singleton_inv in Hcall as (ev & Hev & ->).
    apply daiminkan_event_type in Hev. cbn [map]. rewrite Hev. reflexivity.
  - apply singleton_inv in Hcall as (ev & Hev & ->).
    apply kakan_event_type in Hev. cbn [map]. rewrite Hev. reflexivity.
  - apply singleton_inv in Hcall as (ev & Hev & ->).
    apply ankan_event_type in Hev. cbn [map]. rewrite Hev. reflexivity.
  - unfold reach_events in Hcall. cbv zeta in Hcall.
    apply bind_Ok_inv in Hcall as (ev & Hev & Hcall). injection Hcall as <-.
    apply discard_event_type in Hev. cbn [map]. rewrite Hev. reflexivity.
Qed.

Lemma category_event_types_length (table' : string) (types : list string) :
  category_event_types !! table' = Some types -> (length types <= 2)%nat.
Proof.
  intros H.
  assert (Hall : map_Forall (fun _ ts => (length ts <= 2)%nat)
                            category_event_types).
  { unfold category_event_types.
    repeat (apply map_Forall_insert_2; [simpl; lia|]).
    apply map_Forall_empty. }
  exact (Hall _ _ H).
Qed.

Lemma row_events_inv (table' : string) (payload : Snapshot)
    (events : list Event) :
  row_events table' payload = Ok events ->
  exists tsumo builder start_kyoku tsumogiri_tile action_events ryukyoku,
    tsumo_event payload = Ok tsumo
    /\ dict_getitem ACTION_BUILDERS table' = Ok builder
    /\ start_kyoku_event payload = Ok start_kyoku
    /\ match tsumo with
       | Some ev => exists pai, event_pai ev = Ok pai
                                /\ tsumogiri_tile = Some pai
       | None => tsumogiri_tile = None
       end
    /\ call2 builder payload tsumogiri_tile = Ok action_events
    /\ ryukyoku_event payload = Ok ryukyoku
    /\ events = [start_game_event; start_kyoku] ++ option_list tsumo
                ++ action_events ++ [ryukyoku; EndKyoku; EndGame].
Proof.
  unfold row_events. cbv zeta. intros H.
  apply bind_Ok_inv in H as (tsumo & Htsumo & H).
  apply bind_Ok_inv in H as (builder & Hbuilder & H).
  apply bind_Ok_inv in H as (start_kyoku & Hstart & H).
  apply bind_Ok_inv in H as (tsumogiri_tile & Htile & H).
  apply bind_Ok_inv in H as (action_events & Hcall & H).
  apply bind_Ok_inv in H as (ryukyoku & Hryu & H).
  injection H as <-.
  exists tsumo, builder, start_kyoku, tsumogiri_tile, action_events, ryukyoku.
  repeat (split; [assumption|]).
  split; [|split; [assumption|split; [assumption|]]].
  - destruct tsumo as [ev|].
    + apply bind_Ok_inv in Htile as (pai & Hpai & Htile).
      injection Htile as <-. eauto.
    + injection Htile as <-. reflexivity.
  - unfold tail_events. destruct tsumo as [ev|]; cbn [option_list];
      rewrite <- ?app_assoc; reflexivity.
Qed.

(** The Skip category cannot be converted: its builder takes one argument
    and the row loop calls every builder with two. *)
Lemma row_events_Skip_raises (payload : Snapshot) :
  exists e, row_events "Skip" payload = Raise e.
Proof.
  destruct (row_events "Skip" payload) as [events|e] eqn:H; [|eauto].
  apply row_events_inv in H
    as (tsumo & builder & sk & tile & evs & ry & _ & Hb & _ & _ & Hcall & _).
  injection Hb as <-. discriminate Hcall.
Qed.

(** C4. Whenever the conversion of a row of a category succeeds, the events
    of the row are exactly: start_game, start_kyoku, a tsumo when the
    self-draw builder returned one, the events of the category (at most two,
    of the types of that category), ryukyoku, end_kyoku and end_game, in
    that order and with nothing else. *)
Theorem row_events_sequence (table' : string) (payload : Snapshot)
    (events : list Event) :
  row_events table' payload = Ok events ->
  exists start_kyoku tsumo action_events ryukyoku,
    events = [start_game_event; start_kyoku] ++ option_list tsumo
             ++ action_events ++ [ryukyoku; EndKyoku; EndGame]
    /\ start_kyoku_event payload = Ok start_kyoku
    /\ tsumo_event payload = Ok tsumo
    /\ ryukyoku_event payload = Ok ryukyoku
    /\ category_event_types !! table' = Some (map event_type action_events)
    /\ (length action_events <= 2)%nat
    /\ map event_type events
       = ["start_game"; "start_kyoku"]
         ++ match tsumo with Some _ => ["tsumo"] | None => [] end
         ++ map event_type action_events
         ++ ["ryukyoku"; "end_kyoku"; "end_game"].
Proof.
  intros H.
  apply row_events_inv in H
    as (tsumo & builder & start_kyoku & tile & action_events & ryukyoku
        & Htsumo & Hbuilder & Hstart & _ & Hcall & Hryu & ->).
  exists start_kyoku, tsumo, action_events, ryukyoku.
  pose proof (ACTION_BUILDERS_types _ _ _ _ _ Hbuilder Hcall) as Htypes.
  split; [reflexivity|]. repeat (split; [assumption|]).
  split.
  - apply category_event_types_length in Htypes.
    rewrite length_map in Htypes. exact Htypes.
  - rewrite !map_app. cbn [map].
    rewrite (start_kyoku_event_type _ _ Hstart).
    rewrite (ryukyoku_event_type _ _ Hryu).
    destruct tsumo as [ev|]; [|reflexivity].
    apply tsumo_event_Some_inv in Htsumo as (_ & drawn & pai & _ & _ & ->).
    reflexivity.
Qed.

Lemma row_events_sequence_witness :
  exists events,
    row_events "Riichi" (sample_row hand14 2 (entry [8] [2])) = Ok events
    /\ map event_type events
       = ["start_game"; "start_kyoku"; "tsumo"; "reach"; "dahai";
          "ryukyoku"; "end_kyoku"; "end_game"].
Proof.
  eexists. split; [reflexivity|].
  destruct (row_events_sequence
              "Riichi" (sample_row hand14 2 (entry [8] [2])) _ eq_refl)
    as (sk & tsumo & evs & ry & _ & _ & Htsumo & _ & Htypes & _ & Hmap).
  rewrite Hmap. injection Htsumo as <-.
  assert (Hevs : map event_type evs = ["reach"; "dahai"]).
  { assert (Hcat : category_event_types !! "Riichi"
                   = Some ["reach"; "dahai"]) by (vm_compute; reflexivity).
    congruence. }
  rewrite Hevs. reflexivity.
Defined.

(** C6. On a Discard row the dahai event is the only dahai event of the
    row, its [pai] is the decoding of [valid_actions[action_idx].tiles[0]],
    and its [tsumogiri] flag is true if and only if a self-draw tile was
    produced for the row ([hand_tiles] longer than 13) and the symbol of the
    drawn tile, the last hand tile, equals the discarded symbol; the flag is
    false when no self-draw tile was produced. *)
Theorem discard_tsumogiri_flag (payload : Snapshot) (events : list Event) :
  row_events "Discard" payload = Ok events ->
  let hand := get (hand_tiles payload) [] in
  let actor := get (player_wind payload) 0 in
  exists action tiles' tile_id pai tsumogiri start_kyoku tsumo ryukyoku,
    selected_action payload = Ok action
    /\ tiles action = Some tiles'
    /\ list_getitem tiles' 0 = Ok tile_id
    /\ tile_id_to_mjai tile_id = Ok pai
    /\ tsumo_event payload = Ok tsumo
    /\ events = [start_game_event; start_kyoku] ++ option_list tsumo
                ++ [Dahai actor pai tsumogiri]
                ++ [ryukyoku; EndKyoku; EndGame]
    /\ filter (fun ev => event_type ev = "dahai") events
       = [Dahai actor pai tsumogiri]
    /\ (is_Some tsumo <-> (13 < length hand)%nat)
    /\ (tsumogiri = true <->
        (13 < length hand)%nat
        /\ exists drawn, last hand = Some drawn
                         /\ tile_id_to_mjai drawn = Ok pai)
    /\ ((length hand <= 13)%nat -> tsumogiri = false).
Proof.
  intros H hand actor.
  apply row_events_inv in H
    as (tsumo & builder & start_kyoku & tile & action_events & ryukyoku
        & Htsumo & Hbuilder & Hstart & Htile & Hcall & Hryu & ->).
  injection Hbuilder as <-. cbn [call2] in Hcall.
  apply singleton_inv in Hcall as (ev & Hev & ->).
  apply discard_event_inv in Hev
    as (action & tiles' & tile_id & pai & Haction & Htiles & Hid & Hpai & ->).
  fold actor.
  set (tsumogiri := match tile with
                    | Some t => bool_decide (t = pai)
                    | None => false
                    end).
  exists action, tiles', tile_id, pai, tsumogiri, start_kyoku, tsumo, ryukyoku.
  repeat (split; [assumption|]).
  split; [reflexivity|].
  assert (Hsk : event_type start_kyoku <> "dahai").
  { rewrite (start_kyoku_event_type _ _ Hstart). discriminate. }
  assert (Hry : event_type ryukyoku <> "dahai").
  { rewrite (ryukyoku_event_type _ _ Hryu). discriminate. }
  destruct tsumo as [drawn_ev|].
  - destruct Htile as (drawn_pai & Hdrawn_pai & ->).
    apply tsumo_event_Some_inv in Htsumo
      as (Hlong & drawn & pai' & Hlast & Hdec & ->).
    fold hand in Hlong, Hlast. fold actor.
    injection Hdrawn_pai as ->.
    split; [|split; [|split]].
    + cbv [option_list option_rect]. cbn [app].
      rewrite filter_cons_False by discriminate.
      rewrite filter_cons_False by exact Hsk.
      rewrite filter_cons_False by discriminate.
      rewrite filter_cons_True by reflexivity.
      rewrite filter_cons_False by exact Hry.
      rewrite filter_cons_False by discriminate.
      rewrite filter_cons_False by discriminate.
      reflexivity.
    + split; [intros _; exact Hlong | intros _; eauto].
    + subst tsumogiri. rewrite bool_decide_eq_true. split.
      * intros ->. split; [exact Hlong|]. eauto.
      * intros (_ & drawn' & Hlast' & Hdec'). congruence.
    + intros Hshort. lia.
  - apply tsumo_event_None_inv in Htsumo. fold hand in Htsumo.
    subst tile. subst tsumogiri. cbv beta iota.
    split; [|split; [|split]].
    + cbv [option_list option_rect]. cbn [app].
      rewrite filter_cons_False by discriminate.
      rewrite filter_cons_False by exact Hsk.
      rewrite filter_cons_True by reflexivity.
      rewrite filter_cons_False by exact Hry.
      rewrite filter_cons_False by discriminate.
      rewrite filter_cons_False by discriminate.
      reflexivity.
    + split; [intros [? [=]] | lia].
    + split; [discriminate | lia].
    + reflexivity.
Qed.

Lemma discard_tsumogiri_flag_witness :
  (exists events,
     row_events "Discard" (sample_row hand14 2 (entry [8] [2])) = Ok events
     /\ filter (fun ev => event_type ev = "dahai") events
        = [Dahai 2 "3m" true])
  /\ (exists events,
        row_events "Discard" (sample_row hand13 2 (entry [8] [2])) = Ok events
        /\ filter (fun ev => event_type ev = "dahai") events
           = [Dahai 2 "3m" false]).
Proof.
  split.
  - eexists. split; [reflexivity|].
    destruct (discard_tsumogiri_flag
                (sample_row hand14 2 (entry [8] [2])) _ eq_refl)
      as (action & tiles' & tile_id & pai & flag & sk & tsumo & ry
          & Haction & Htiles & Hid & Hpai & _ & _ & Hfilter & _ & Hflag & _).
    rewrite Hfilter.
    injection Haction as <-. injection Htiles as <-.
    injection Hid as <-. injection Hpai as <-.
    replace flag with true; [reflexivity|].
    symmetry. apply Hflag. split; [simpl; lia|].
    exists 8. split; reflexivity.
  - eexists. split; [reflexivity|].
    destruct (discard_tsumogiri_flag
                (sample_row hand13 2 (entry [8] [2])) _ eq_refl)
      as (action & tiles' & tile_id & pai & flag & sk & tsumo & ry
          & Haction & Htiles & Hid & Hpai & _ & _ & Hfilter & _ & _ & Hfalse).
    rewrite Hfilter.
    injection Haction as <-. injection Htiles as <-.
    injection Hid as <-. injection Hpai as <-.
    rewrite Hfalse by (simpl; lia). reflexivity.
Defined.

Lemma tiles_from_action_unequal_lengths_witness :
  tiles_from_action {| tiles := Some ([5; 9] ++ [-1; 13]); who := Some [0; 1] |}
  = tiles_from_action {| tiles := Some [5; 9]; who := Some [0; 1] |}
  /\ kakan_event quad_row
     = kakan_event (sample_row hand13 0
                      (paired_action (entry [0; 1; 2; 3] [0; 0; 0; 0]))).
Proof.
  destruct tiles_from_action_unequal_lengths as (_ & Hsurplus & Hbuilders).
  split.
  - apply (Hsurplus [5; 9] [0; 1] [-1; 13]). reflexivity.
  - apply (Hbuilders quad_row
             (sample_row hand13 0
                (paired_action (entry [0; 1; 2; 3] [0; 0; 0; 0])))
             (entry [0; 1; 2; 3] [0; 0; 0; 0]));
      reflexivity.
Defined.

(** ** Exporter *)

Section ExporterProperties.

Context {Blob : Type}.
Variable decompress_loads : Blob -> result Snapshot.
Variable dumps : Event -> string.

(** The lines of one row are appended to the output in event order. *)
Lemma write_events_appends (path : string) (events : list Event) (w : World) :
  let w' := foldl (fun w0 ev => write_line path (dumps ev) w0) w events in
  dirs w' = dirs w
  /\ files w' !! path
     = match events with
       | [] => files w !! path
       | _ :: _ => Some (get (files w !! path) [] ++ map dumps events)
       end
  /\ forall other, other <> path -> files w' !! other = files w !! other.
Proof.
  revert w. induction events as [|ev events IH]; intros w; cbn [foldl].
  - auto.
  - destruct (IH (write_line path (dumps ev) w)) as (Hdirs & Hfile & Hother).
    split; [rewrite Hdirs; reflexivity|]. split.
    + rewrite Hfile. cbn [write_line files].
      destruct events as [|ev' events'].
      * rewrite lookup_insert_eq. reflexivity.
      * rewrite lookup_insert_eq. cbn [get]. rewrite <- app_assoc.
        reflexivity.
    + intros other Hne. rewrite Hother by exact Hne.
      cbn [write_line files]. apply lookup_insert_ne. congruence.
Qed.

(** The row loop never removes a file and never touches the directories. *)
Lemma export_rows_keeps (table' path : string) (rows' : list (Z * Blob))
    (w : World) :
  is_Some (files w !! path) ->
  let w' := (export_rows Blob decompress_loads dumps table' path rows' w).2 in
  dirs w' = dirs w /\ is_Some (files w' !! path).
Proof.
  revert w. induction rows' as [|[identifier blob] rest IH]; intros w Hfile.
  - cbn. auto.
  - cbn [export_rows].
    destruct (load_row Blob decompress_loads table' identifier blob)
      as [payload|e]; [|cbn; auto].
    destruct (row_events table' payload) as [events|e]; [|cbn; auto].
    destruct (write_events_appends path events w) as (Hdirs & Hlines & _).
    specialize (IH (foldl (fun w0 ev => write_line path (dumps ev) w0)
                          w events)).
    cbv zeta in IH.
    destruct IH as [IHdirs IHfile].
    { rewrite Hlines. destruct events; [exact Hfile | eauto]. }
    split; [rewrite IHdirs; exact Hdirs | exact IHfile].
Qed.

(** A table with rows does reach the file system: the directory is
    ensured and the output file exists afterwards, whatever the rows
    hold. *)
Lemma convert_table_nonempty_opens_output (db : gmap string (list (Z * Blob)))
    (table' output_dir : string) (row : Z * Blob) (rest : list (Z * Blob))
    (w : World) :
  db !! table' = Some (row :: rest) ->
  let w' :=
    (convert_table Blob decompress_loads dumps db table' output_dir w).2 in
  output_dir ∈ dirs w'
  /\ is_Some (files w'
              !! (output_dir +:+ "/" +:+ lower table' +:+ ".json.gz")).
Proof.
  intros Hrows. cbv zeta. unfold convert_table, select_all.
  rewrite Hrows.
  set (path := output_dir +:+ "/" +:+ lower table' +:+ ".json.gz").
  set (w0 := gzip_open path (ensure_directory output_dir w)).
  destruct (export_rows_keeps table' path (row :: rest) w0) as [Hdirs Hfile].
  { subst w0. cbn [gzip_open files]. rewrite lookup_insert_eq. eauto. }
  assert (Hin : output_dir ∈ dirs w0).
  { unfold w0. cbn [gzip_open ensure_directory dirs].
    apply elem_of_union_l, elem_of_singleton. reflexivity. }
  destruct (export_rows Blob decompress_loads dumps table' path
              (row :: rest) w0) as [[u|e] w1];
    cbn [snd] in Hdirs, Hfile |- *;
    (split; [rewrite Hdirs; exact Hin | exact Hfile]).
Qed.

(** C8. Exporting a category whose table has zero rows raises the
    empty-category error ([RuntimeError "table ... is empty"]) and leaves
    the file system as it was: no directory is ensured and no output file
    is created or opened. *)
Theorem convert_table_empty (db : gmap string (list (Z * Blob)))
    (table' output_dir : string) (w : World) :
  db !! table' = Some [] ->
  exists e,
    convert_table Blob decompress_loads dumps db table' output_dir w
    = (Raise e, w)
    /\ EmptyCategory e
    /\ dirs (convert_table Blob decompress_loads dumps
               db table' output_dir w).2 = dirs w
    /\ files (convert_table Blob decompress_loads dumps
                db table' output_dir w).2 = files w.
Proof.
  intros Hrows. unfold convert_table, select_all.
  rewrite Hrows.
  exists (RuntimeError ("table " +:+ table' +:+ " is empty")).
  split; [reflexivity|]. split; [|split; reflexivity].
  exists table'. reflexivity.
Qed.

End ExporterProperties.

Lemma convert_table_empty_witness :
  exists e,
    convert_table unit (fun _ => Raise (OSError "not a gzip file")) event_type
      empty_chi_database "Chi" "converted" empty_world
    = (Raise e, empty_world)
    /\ EmptyCategory e
    /\ files (convert_table unit (fun _ => Raise (OSError "not a gzip file"))
                event_type empty_chi_database "Chi" "converted" empty_world).2
         !! "converted/chi.json.gz" = None.
Proof.
  destruct (convert_table_empty
              (fun _ : unit => Raise (OSError "not a gzip file")) event_type
              empty_chi_database "Chi" "converted" empty_world)
    as (e & Hrun & Hempty & _ & Hfiles).
  - vm_compute. reflexivity.
  - exists e. split; [exact Hrun|]. split; [exact Hempty|].
    rewrite Hfiles. reflexivity.
Defined.

(** * Further properties *)

(** ** Tile codec: structure of the table *)

(** X1. Two tile ids of the 0..135 domain decode to the same symbol exactly
    when they are copies of the same kind, that is when their quotients by 4
    agree: the copy index is the only information the decoding drops. *)
Theorem tile_id_to_mjai_same_symbol (n m : Z) :
  0 <= n <= 135 -> 0 <= m <= 135 ->
  (tile_id_to_mjai n = tile_id_to_mjai m <-> n / 4 = m / 4).
Proof.
  intros Hn Hm.
  destruct (tile_id_to_mjai_kind n) as (tn & Hln & Hdn);
    [lia | apply div4_lt_34; lia |].
  destruct (tile_id_to_mjai_kind m) as (tm & Hlm & Hdm);
    [lia | apply div4_lt_34; lia |].
  rewrite Hdn, Hdm. split.
  - intros [= ->].
    pose proof (NoDup_lookup _ _ _ _ MJAI_TILES_NoDup Hln Hlm) as Hidx.
    assert (0 <= n / 4) by (apply Z.div_pos; lia).
    assert (0 <= m / 4) by (apply Z.div_pos; lia).
    lia.
  - intros Heq. rewrite Heq in Hln. congruence.
Qed.

Lemma tile_id_to_mjai_same_symbol_witness :
  (tile_id_to_mjai 16 = tile_id_to_mjai 19 <-> 16 / 4 = 19 / 4)
  /\ tile_id_to_mjai 19 <> tile_id_to_mjai 20.
Proof.
  split.
  - apply (tile_id_to_mjai_same_symbol 16 19); lia.
  - intros Heq.
    apply (tile_id_to_mjai_same_symbol 19 20) in Heq; [|lia|lia].
    vm_compute in Heq. discriminate Heq.
Defined.

(** X2. The numbered tiles: a tile id below 108 decodes to the two-character
    symbol made of the rank [(id // 4) mod 9 + 1] and the suit letter of
    [id // 36] (m, p, s): every suit takes 36 consecutive ids, ranks
    ascending, four copies each. *)
Theorem tile_id_to_mjai_numbered (n : Z) :
  0 <= n < 108 ->
  tile_id_to_mjai n
  = Ok (pretty ((n / 4) mod 9 + 1) +:+ suit_letter (n / 36)).
Proof.
  intros Hn.
  destruct (tile_id_to_mjai_kind n) as (tile & Hlook & ->);
    [lia | apply div4_lt_34; lia |].
  replace (n / 36) with (n / 4 / 9) by (rewrite Z.div_div by lia; reflexivity).
  assert (Hq : 0 <= n / 4 < 27).
  { split; [apply Z.div_pos; lia|]. apply Z.div_lt_upper_bound; lia. }
  rewrite <- (Z2Nat.id (n / 4)) by lia.
  assert (Hk : (Z.to_nat (n / 4) < 27)%nat) by lia.
  revert Hlook Hk. generalize (Z.to_nat (n / 4)). intros k Hlook Hk.
  do 27 (destruct k as [|k];
         [injection Hlook as <-; vm_compute; reflexivity|]).
  lia.
Qed.

Lemma tile_id_to_mjai_numbered_witness :
  tile_id_to_mjai 71 = Ok "9p".
Proof.
  apply (tile_id_to_mjai_numbered 71). lia.
Defined.

(** ** Payload extractor: what a successful split looks like *)

Lemma traverse_fmap {A B C} (f : B -> result C) (g : A -> B) (xs : list A) :
  traverse f (map g xs) = traverse (fun x => f (g x)) xs.
Proof.
  induction xs as [|x xs IH]; simpl; [reflexivity|]. rewrite IH. reflexivity.
Qed.

Lemma length_filter_split {A} (P : A -> Prop) `{!forall x, Decision (P x)}
    (l : list A) :
  (length (filter P l) + length (filter (fun x => ~ P x) l))%nat = length l.
Proof.
  induction l as [|x l IH]; [reflexivity|].
  rewrite !filter_cons. destruct (decide (P x)) as [Hx|Hx].
  - rewrite decide_False by tauto. simpl. lia.
  - rewrite decide_True by exact Hx. simpl. lia.
Qed.

Lemma split_action_tiles_Ok_inv (action : Action) (actor : Z)
    (consumed claimed : list string) (target : option Z) :
  _split_action_tiles action actor = Ok (consumed, claimed, target) ->
  actor_tiles action actor = Ok consumed
  /\ match last (filter (fun p : Z * Z => p.2 <> actor)
                        (tiles_from_action action)) with
     | Some (tile_id, owner) =>
         exists pai, tile_id_to_mjai tile_id = Ok pai
                     /\ claimed = [pai] /\ target = Some owner
                     /\ owner <> actor
     | None => claimed = [] /\ target = None
     end.
Proof.
  rewrite split_action_tiles_refines. unfold split_action_tiles_spec.
  fold (tiles_from_action action). unfold actor_tiles.
  set (kept := tiles_from_action action).
  intros H.
  apply bind_Ok_inv in H as (all & _ & H).
  apply bind_Ok_inv in H as (own & Hown & H).
  rewrite traverse_fmap in Hown.
  destruct (last (filter (fun p : Z * Z => p.2 <> actor) kept))
    as [[tile_id owner]|] eqn:Hlast.
  - apply bind_Ok_inv in H as (pai & Hpai & H).
    injection H as <- <- <-. split; [exact Hown|].
    exists pai. repeat split; try assumption.
    apply last_Some_elem_of in Hlast.
    apply list_elem_of_filter in Hlast as [Hne _]. exact Hne.
  - injection H as <- <- <-. auto.
Qed.

(** X3. A successful split keeps these invariants: [consumed] has one symbol
    per kept pair of the actor, [claimed] has at most one symbol and is
    empty exactly when no seat is reported, the reported seat is never the
    actor, no more symbols come out than pairs were kept, and every symbol
    is one of the canonical 34. *)
Theorem split_action_tiles_invariants (action : Action) (actor : Z)
    (consumed claimed : list string) (target : option Z) :
  _split_action_tiles action actor = Ok (consumed, claimed, target) ->
  length consumed
  = length (filter (fun p : Z * Z => p.2 = actor) (tiles_from_action action))
  /\ (length claimed <= 1)%nat
  /\ (claimed = [] <-> target = None)
  /\ target <> Some actor
  /\ (length consumed + length claimed
      <= length (tiles_from_action action))%nat
  /\ Forall (fun tile => tile ∈ MJAI_TILES) (consumed ++ claimed).
Proof.
  intros H. apply split_action_tiles_Ok_inv in H as [Hown Hclaimed].
  assert (Hlen : length consumed
                 = length (filter (fun p : Z * Z => p.2 = actor)
                                  (tiles_from_action action))).
  { apply traverse_length in Hown. exact Hown. }
  assert (Hsyms : Forall (fun tile => tile ∈ MJAI_TILES) consumed).
  { apply traverse_Forall2 in Hown.
    apply (Forall2_Forall_r _ _ _ _ Hown).
    apply Forall_forall. intros p _ tile Hdec.
    apply tile_id_to_mjai_Ok_inv in Hdec as [_ Hlook].
    apply list_elem_of_lookup. eauto. }
  assert (Hsplit :
            (length (filter (fun p : Z * Z => p.2 = actor)
                            (tiles_from_action action))
             + length (filter (fun p : Z * Z => p.2 <> actor)
                              (tiles_from_action action))
             = length (tiles_from_action action))%nat).
  { apply (length_filter_split (fun p : Z * Z => p.2 = actor)). }
  split; [exact Hlen|].
  destruct (last (filter (fun p : Z * Z => p.2 <> actor)
                         (tiles_from_action action)))
    as [[tile_id owner]|] eqn:Hlast.
  - destruct Hclaimed as (pai & Hpai & -> & -> & Hne).
    assert (Hext : (1 <= length (filter (fun p : Z * Z => p.2 <> actor)
                                        (tiles_from_action action)))%nat).
    { destruct (filter (fun p : Z * Z => p.2 <> actor)
                       (tiles_from_action action)); [discriminate Hlast|].
      simpl. lia. }
    split; [cbn [length]; lia|]. split; [split; discriminate|].
    split; [congruence|]. split.
    { replace (length [pai]) with 1%nat by reflexivity. lia. }
    apply Forall_app. split; [exact Hsyms|].
    constructor; [|constructor].
    apply tile_id_to_mjai_Ok_inv in Hpai as [_ Hlook].
    apply list_elem_of_lookup. eauto.
  - destruct Hclaimed as [-> ->].
    split; [cbn [length]; lia|]. split; [tauto|]. split; [discriminate|].
    split; [|rewrite app_nil_r; exact Hsyms].
    replace (length (@nil string)) with 0%nat by reflexivity. lia.
Qed.

Lemma split_action_tiles_invariants_witness :
  exists consumed claimed target,
    _split_action_tiles (entry [5; 9; -1; 13] [0; 1; 0; 0]) 0
    = Ok (consumed, claimed, target)
    /\ (length claimed <= 1)%nat
    /\ target <> Some 0.
Proof.
  eexists _, _, _. split; [reflexivity|].
  destruct (split_action_tiles_invariants
              (entry [5; 9; -1; 13] [0; 1; 0; 0]) 0 _ _ _ eq_refl)
    as (_ & Hone & _ & Hseat & _).
  split; [exact Hone | exact Hseat].
Defined.

(** ** Call events: the fields of what is built *)

Lemma call_split_parts (st : Snapshot) (action : Action)
    (consumed pai_list : list string) (target : option Z) (owner : Z)
    (pai : string) (rest : list string) :
  selected_action st = Ok action ->
  _split_action_tiles action (get (player_wind st) 0)
  = Ok (consumed, pai_list, target) ->
  target = Some owner -> pai_list = pai :: rest ->
  call_parts st consumed owner pai.
Proof.
  intros Haction Hsplit -> ->.
  apply split_action_tiles_Ok_inv in Hsplit as [Hown Hclaimed].
  unfold call_parts. cbv zeta.
  destruct (last (filter (fun p : Z * Z => p.2 <> get (player_wind st) 0)
                         (tiles_from_action action)))
    as [[tile_id owner']|] eqn:Hlast.
  - destruct Hclaimed as (pai' & Hpai & [= -> ->] & [= ->] & Hne).
    exists action, tile_id. rewrite Hlast. auto.
  - destruct Hclaimed as [[=] _].
Qed.

(** X4. A chi, pon or daiminkan event that is built carries the actor, the
    owner of the last kept pair of another seat as [target] (never the actor
    itself), the decoding of that pair's tile as [pai], and as [consumed]
    the first 2 (chi, pon) or first 3 (daiminkan) decoded tiles of the
    actor in source order; further actor tiles are dropped and fewer, even
    none, are accepted. *)
Theorem call_event_fields (st : Snapshot) (ev : Event) :
  let actor := get (player_wind st) 0 in
  (chi_event st = Ok ev ->
     exists own owner pai,
       call_parts st own owner pai /\ ev = Chi actor owner pai (take 2 own))
  /\ (pon_event st = Ok ev ->
        exists own owner pai,
          call_parts st own owner pai /\ ev = Pon actor owner pai (take 2 own))
  /\ (daiminkan_event st = Ok ev ->
        exists own owner pai,
          call_parts st own owner pai
          /\ ev = Daiminkan actor owner pai (take 3 own)).
Proof.
  intros actor. unfold chi_event, pon_event, daiminkan_event. fold actor.
  repeat split; intros H;
    apply bind_Ok_inv in H as (action & Haction & H);
    apply bind_Ok_inv in H as ([[consumed pai_list] target] & Hsplit & H);
    destruct target as [owner|]; try discriminate H;
    destruct pai_list as [|pai rest]; try discriminate H;
    injection H as <-;
    exists consumed, owner, pai;
    (split; [|reflexivity]);
    exact (call_split_parts st action consumed (pai :: rest) (Some owner)
             owner pai rest Haction Hsplit eq_refl eq_refl).
Qed.

Lemma call_event_fields_witness :
  chi_event bare_claim_row = Ok (Chi 0 1 "3m" [])
  /\ exists own owner pai,
       call_parts call_row own owner pai
       /\ Daiminkan 0 1 "3m" ["2m"; "4m"]
          = Daiminkan 0 owner pai (take 3 own).
Proof.
  split; [reflexivity|].
  apply (call_event_fields call_row (Daiminkan 0 1 "3m" ["2m"; "4m"])).
  reflexivity.
Defined.

(** X5. An ankan event that is built has exactly the first four decoded
    tiles of the actor as [consumed]; a kakan event that is built has
    exactly the first three as [consumed] and the first one again as [pai].
    Actor tiles after the fourth are ignored by both. *)
Theorem quad_event_fields (st : Snapshot) (ev : Event) :
  let actor := get (player_wind st) 0 in
  (ankan_event st = Ok ev ->
     exists action t0 t1 t2 t3 more,
       selected_action st = Ok action
       /\ actor_tiles action actor = Ok (t0 :: t1 :: t2 :: t3 :: more)
       /\ ev = Ankan actor [t0; t1; t2; t3])
  /\ (kakan_event st = Ok ev ->
        exists action t0 t1 t2 t3 more,
          selected_action st = Ok action
          /\ actor_tiles action actor = Ok (t0 :: t1 :: t2 :: t3 :: more)
          /\ ev = Kakan actor t0 [t0; t1; t2]).
Proof.
  intros actor. split.
  - unfold ankan_event. fold actor. intros H.
    apply bind_Ok_inv in H as (action & Haction & H).
    apply bind_Ok_inv in H as (tiles' & Htiles & H).
    destruct (Nat.ltb_spec (length tiles') 4) as [Hshort|Hlong];
      [discriminate H|].
    destruct tiles' as [|t0 [|t1 [|t2 [|t3 more]]]]; simpl in Hlong; try lia.
    injection H as <-. exists action, t0, t1, t2, t3, more. auto.
  - apply kakan_event_fields.
Qed.

Lemma quad_event_fields_witness :
  exists action t0 t1 t2 t3 more,
    selected_action quad_row = Ok action
    /\ actor_tiles action 0 = Ok (t0 :: t1 :: t2 :: t3 :: more)
    /\ Ankan 0 ["1m"; "1m"; "1m"; "1m"] = Ankan 0 [t0; t1; t2; t3].
Proof.
  apply (quad_event_fields quad_row (Ankan 0 ["1m"; "1m"; "1m"; "1m"])).
  reflexivity.
Defined.

(** ** Reading the action entry *)




(** X7. With the action entry read, the discard builder looks at
    [tiles[0]] only: an absent [tiles] key raises [KeyError], an empty list
    raises [IndexError], a first tile id outside 0..135 raises [ValueError]
    (a negative id is not skipped here), and otherwise the dahai event of
    the decoded first tile is built, whatever [who] and the later tiles
    are. *)
Theorem discard_event_outcome (st : Snapshot) (tsumogiri_tile : option string)
    (action : Action) :
  selected_action st = Ok action ->
  (tiles action = None ->
     discard_event st tsumogiri_tile = Raise (KeyError "tiles"))
  /\ (tiles action = Some [] ->
        discard_event st tsumogiri_tile
        = Raise (IndexError "list index out of range"))
  /\ (forall tile_id rest, tiles action = Some (tile_id :: rest) ->
        (decodable tile_id ->
           exists pai,
             tile_id_to_mjai tile_id = Ok pai
             /\ discard_event st tsumogiri_tile
                = Ok (Dahai (get (player_wind st) 0) pai
                        match tsumogiri_tile with
                        | Some tile => bool_decide (tile = pai)
                        | None => false
                        end))
        /\ (~ decodable tile_id ->
              exists msg,
                discard_event st tsumogiri_tile = Raise (ValueError msg))).
Proof.
  intros Haction. unfold discard_event. rewrite Haction. cbn [bind].
  split; [|split].
  - intros ->. reflexivity.
  - intros ->. reflexivity.
  - intros tile_id rest ->. cbn [getitem bind].
    rewrite list_getitem_0. cbn [bind]. split.
    + intros Hdec.
      destruct (tile_id_to_mjai_valid tile_id Hdec) as [pai Hpai].
      exists pai. rewrite Hpai. split; reflexivity.
    + intros Hbad.
      destruct (tile_id_to_mjai_invalid tile_id) as [msg Hmsg].
      { unfold decodable in Hbad.
        destruct (Z.lt_ge_cases tile_id 0) as [?|?]; [left; assumption|].
        right. destruct (Z.lt_ge_cases (tile_id / 4) 34) as [Hq|Hq]; [|lia].
        apply div4_lt_34 in Hq. lia. }
      exists msg. rewrite Hmsg. reflexivity.
Qed.

Lemma discard_event_outcome_witness :
  exists msg,
    discard_event negative_discard_row None = Raise (ValueError msg).
Proof.
  destruct (discard_event_outcome negative_discard_row None
              (entry [-1; 8] [2; 2]) eq_refl) as (_ & _ & Hcons).
  destruct (Hcons (-1) [8] eq_refl) as [_ Hbad].
  apply Hbad. unfold decodable. lia.
Defined.

(** X8. An action entry that yields no pair (its [tiles] or [who] key is
    absent, or one of the two lists is empty) makes all five call and quad
    builders raise the malformed-action [RuntimeError]; no [KeyError] is
    raised for the absent key. *)
Theorem builders_on_entry_without_pairs (st : Snapshot) (action : Action) :
  selected_action st = Ok action ->
  tiles action = None \/ who action = None
  \/ tiles action = Some [] \/ who action = Some [] ->
  tiles_from_action action = []
  /\ (exists e, chi_event st = Raise e /\ MalformedAction e)
  /\ (exists e, pon_event st = Raise e /\ MalformedAction e)
  /\ (exists e, daiminkan_event st = Raise e /\ MalformedAction e)
  /\ (exists e, kakan_event st = Raise e /\ MalformedAction e)
  /\ (exists e, ankan_event st = Raise e /\ MalformedAction e).
Proof.
  intros Haction Hnone.
  assert (Hpairs : tiles_from_action action = []).
  { unfold tiles_from_action.
    destruct Hnone as [-> | [-> | [-> | ->]]]; cbn [get];
      rewrite ?zip_with_nil_r; reflexivity. }
  split; [exact Hpairs|].
  unfold chi_event, pon_event, daiminkan_event, kakan_event, ankan_event.
  rewrite Haction. cbn [bind].
  unfold _split_action_tiles, actor_tiles. rewrite Hpairs.
  cbn.
  repeat split; eexists; (split; [reflexivity|]); eexists;
    (split; [|reflexivity]); unfold malformed_action_messages;
    repeat constructor.
Qed.

Lemma builders_on_entry_without_pairs_witness :
  (exists e, chi_event no_who_row = Raise e /\ MalformedAction e)
  /\ (exists e, ankan_event no_who_row = Raise e /\ MalformedAction e).
Proof.
  destruct (builders_on_entry_without_pairs no_who_row
              {| tiles := Some [0; 1; 2; 3]; who := None |} eq_refl)
    as (_ & Hchi & _ & _ & _ & Hankan).
  - right. left. reflexivity.
  - split; [exact Hchi | exact Hankan].
Defined.

(** ** Riichi rows *)

(** X9. A Riichi row is converted exactly like the same payload as a Discard
    row, with one reach event of the actor put directly in front of the
    dahai event: the same rows convert, the same error is raised when they
    do not, and the dahai event (tile and tsumogiri flag) is the same. *)
Theorem riichi_row_is_discard_row_with_reach (payload : Snapshot) :
  row_events "Riichi" payload
  = (try events <- row_events "Discard" payload;
     Ok (insert_reach (get (player_wind payload) 0) events)).
Proof.
  unfold row_events. cbn [dict_getitem ACTION_BUILDERS String.eqb
                          Ascii.eqb Bool.eqb bind].
  destruct (tsumo_event payload) as [tsumo|e] eqn:Htsumo; [|reflexivity].
  cbn [bind].
  unfold ACTION_BUILDERS. cbn [dict_getitem].
  replace (String.eqb "Skip" "Riichi") with false by reflexivity.
  replace (String.eqb "Discard" "Riichi") with false by reflexivity.
  replace (String.eqb "Chi" "Riichi") with false by reflexivity.
  replace (String.eqb "Pon" "Riichi") with false by reflexivity.
  replace (String.eqb "DaiMinKan" "Riichi") with false by reflexivity.
  replace (String.eqb "ShouMinKan" "Riichi") with false by reflexivity.
  replace (String.eqb "AnKan" "Riichi") with false by reflexivity.
  replace (String.eqb "Riichi" "Riichi") with true by reflexivity.
  replace (String.eqb "Skip" "Discard") with false by reflexivity.
  replace (String.eqb "Discard" "Discard") with true by reflexivity.
  cbn [bind].
  destruct (start_kyoku_event payload) as [sk|e] eqn:Hsk; [|reflexivity].
  cbn [bind].
  pose proof (start_kyoku_event_type _ _ Hsk) as Hsk_type.
  assert (Htile : exists tile,
            match tsumo with
            | Some ev => try pai <- event_pai ev; Ok (Some pai)
            | None => Ok None
            end = Ok tile
            /\ forall ev, tsumo = Some ev -> event_type ev = "tsumo").
  { destruct tsumo as [ev|].
    - apply tsumo_event_Some_inv in Htsumo as (_ & drawn & pai & _ & _ & ->).
      exists (Some pai). split; [reflexivity|]. intros ev [= <-]. reflexivity.
    - exists None. split; [reflexivity|]. intros ev [=]. }
  destruct Htile as (tile & -> & Htsumo_type). cbn [bind call2].
  unfold reach_events, singleton.
  destruct (discard_event payload tile) as [dahai|e] eqn:Hdahai;
    [|reflexivity].
  cbn [bind].
  pose proof (discard_event_type _ _ _ Hdahai) as Hdahai_type.
  destruct (ryukyoku_event payload) as [ry|e]; [|reflexivity].
  cbn [bind]. f_equal.
  destruct tsumo as [ev|].
  - specialize (Htsumo_type ev eq_refl).
    cbn [app insert_reach event_type start_game_event].
    rewrite Hsk_type, Htsumo_type, Hdahai_type. reflexivity.
  - cbn [app insert_reach event_type start_game_event].
    rewrite Hsk_type, Hdahai_type. reflexivity.
Qed.

(** ** Round end *)

(** X10. The round-end event is built exactly when the four seat records
    "0" .. "3" are present; its [deltas] are their [PointsReward] entries in
    seat order, 0 for a record without one, so there are always four.  When
    it is not built the error is the [KeyError] of the first absent seat. *)
Theorem ryukyoku_event_outcome (st : Snapshot) :
  (forall ev,
     ryukyoku_event st = Ok ev <->
     exists s0 s1 s2 s3,
       seats st !! "0" = Some s0 /\ seats st !! "1" = Some s1
       /\ seats st !! "2" = Some s2 /\ seats st !! "3" = Some s3
       /\ ev = Ryukyoku [get (PointsReward s0) 0; get (PointsReward s1) 0;
                         get (PointsReward s2) 0; get (PointsReward s3) 0])
  /\ (forall e,
        ryukyoku_event st = Raise e ->
        exists before key after,
          seat_keys = before ++ key :: after
          /\ Forall (fun k => is_Some (seats st !! k)) before
          /\ seats st !! key = None
          /\ e = KeyError key).
Proof.
  unfold ryukyoku_event, seat_keys. cbn [traverse].
  destruct (seats st !! "0") as [s0|] eqn:H0; cbn [getitem bind].
  2:{ split.
      - intros ev. split; [discriminate|]. intros (? & ? & ? & ? & [=] & _).
      - intros e [= <-]. exists [], "0", ["1"; "2"; "3"].
        repeat split; auto. }
  destruct (seats st !! "1") as [s1|] eqn:H1; cbn [getitem bind].
  2:{ split.
      - intros ev. split; [discriminate|].
        intros (? & ? & ? & ? & _ & [=] & _).
      - intros e [= <-]. exists ["0"], "1", ["2"; "3"].
        repeat split; auto;
          repeat (constructor; [rewrite ?H0; eauto|]); constructor. }
  destruct (seats st !! "2") as [s2|] eqn:H2; cbn [getitem bind].
  2:{ split.
      - intros ev. split; [discriminate|].
        intros (? & ? & ? & ? & _ & _ & [=] & _).
      - intros e [= <-]. exists ["0"; "1"], "2", ["3"].
        repeat split; auto;
          repeat (constructor; [rewrite ?H0, ?H1; eauto|]); constructor. }
  destruct (seats st !! "3") as [s3|] eqn:H3; cbn [getitem bind].
  2:{ split.
      - intros ev. split; [discriminate|].
        intros (? & ? & ? & ? & _ & _ & _ & [=] & _).
      - intros e [= <-]. exists ["0"; "1"; "2"], "3", [].
        repeat split; auto;
          repeat (constructor; [rewrite ?H0, ?H1, ?H2; eauto|]); constructor. }
  split.
  - intros ev. split.
    + intros [= <-]. exists s0, s1, s2, s3. auto 10.
    + intros (? & ? & ? & ? & [= <-] & [= <-] & [= <-] & [= <-] & ->).
      reflexivity.
  - intros e [=].
Qed.

Lemma ryukyoku_event_outcome_witness :
  ryukyoku_event (sample_row hand13 0 (entry [8] [0]))
  = Ok (Ryukyoku [0; 0; 0; 0]).
Proof.
  apply (ryukyoku_event_outcome (sample_row hand13 0 (entry [8] [0]))).
  exists (seat_record 25000), (seat_record 25000), (seat_record 25000),
    (seat_record 25000).
  repeat split; vm_compute; reflexivity.
Defined.


(** ** Round start: when it is built *)

Lemma traverse_succeeds_iff {A B} (f : A -> result B) (xs : list A) :
  (exists ys, traverse f xs = Ok ys)
  <-> Forall (fun x => exists y, f x = Ok y) xs.
Proof.
  split; [|apply traverse_total].
  intros [ys Hys]. apply traverse_Forall2 in Hys.
  induction Hys; constructor; eauto.
Qed.

Lemma decodable_iff (tile_id : Z) :
  decodable tile_id <-> exists tile, tile_id_to_mjai tile_id = Ok tile.
Proof.
  split; [apply tile_id_to_mjai_valid|].
  intros [tile Htile]. apply tile_id_to_mjai_Ok_inv in Htile as [Hrange _].
  exact Hrange.
Qed.

Lemma py_index_is_Some (len : nat) (i : Z) :
  is_Some (py_index len i) <-> - Z.of_nat len <= i < Z.of_nat len.
Proof.
  unfold py_index.
  destruct (Z.leb_spec 0 i); destruct (Z.ltb_spec i (Z.of_nat len));
    cbn [andb].
  - split; [lia | eauto].
  - destruct (Z.ltb_spec i 0); [lia|]. cbn [andb].
    split; [intros [? [=]] | lia].
  - destruct (Z.ltb_spec i 0); [|lia].
    destruct (Z.leb_spec (- Z.of_nat len) i); cbn [andb];
      (split; [try lia; intros [? [=]] | try lia; eauto]).
  - lia.
Qed.

(** The round-start builder with its steps in a normal form. *)
Lemma start_kyoku_event_steps (st : Snapshot) :
  start_kyoku_event st
  = (try dora_marker <- tile_id_to_mjai (first_dora_or_zero st);
     try scores <-
       traverse (fun key =>
                   try seat <- getitem key (seats st !! key);
                   getitem "points" (points seat)) seat_keys;
     try decoded <- traverse tile_id_to_mjai (get (hand_tiles st) []);
     match py_index 4 (get (player_wind st) 0) with
     | Some pos =>
         Ok (StartKyoku (bakaze_of (round_wind st)) dora_marker
               (clamp_1_4 (get (kyoku st) 1))
               (get (num_honba st) 0) (get (num_riichi st) 0)
               (get (oya st) 0) scores
               (<[pos := pad13 decoded]> (replicate 4 unknown_hand)))
     | None => Raise (IndexError "list assignment index out of range")
     end).
Proof.
  unfold start_kyoku_event. cbv zeta.
  assert (Hdora : list_getitem (dora_markers_of st) 0
                  = Ok (first_dora_or_zero st)).
  { unfold dora_markers_of, first_dora_or_zero.
    destruct (dora_indicators st) as [[|d ds]|]; apply list_getitem_0. }
  rewrite Hdora. cbn [bind].
  destruct (tile_id_to_mjai (first_dora_or_zero st)) as [dora_marker|e];
    [|reflexivity].
  cbn [bind].
  destruct (traverse _ seat_keys) as [scores|e]; [|reflexivity].
  cbn [bind].
  destruct (traverse tile_id_to_mjai (get (hand_tiles st) []))
    as [decoded|e]; [|reflexivity].
  cbn [bind]. rewrite concealed_pad13.
  unfold list_setitem. rewrite length_replicate.
  destruct (py_index 4 (get (player_wind st) 0)) as [pos|]; [|reflexivity].
  cbn [bind]. rewrite bakaze_lookup, clamp_max_min. reflexivity.
Qed.

(** X11. The round-start event is built exactly when the first dora
    indicator (tile id 0 by default) is in 0..135, each of the seat records
    "0" .. "3" is present with a [points] entry, every entry of
    [hand_tiles] is in 0..135 (negative ids are not skipped, and entries
    past the 13th count too) and the seat wind is in -4..3. *)
Theorem start_kyoku_event_succeeds_iff (st : Snapshot) :
  (exists ev, start_kyoku_event st = Ok ev)
  <-> decodable (first_dora_or_zero st)
      /\ Forall (fun key => exists seat score,
                   seats st !! key = Some seat /\ points seat = Some score)
                seat_keys
      /\ Forall decodable (get (hand_tiles st) [])
      /\ -4 <= get (player_wind st) 0 <= 3.
Proof.
  rewrite start_kyoku_event_steps.
  assert (Hseats :
    (exists scores,
       traverse (fun key =>
                   try seat <- getitem key (seats st !! key);
                   getitem "points" (points seat)) seat_keys = Ok scores)
    <-> Forall (fun key => exists seat score,
                  seats st !! key = Some seat /\ points seat = Some score)
               seat_keys).
  { rewrite traverse_succeeds_iff. apply Forall_iff. intros key.
    destruct (seats st !! key) as [seat|]; cbn [getitem bind].
    - destruct (points seat) as [score|] eqn:Hp; cbn [getitem].
      + split; [intros _; exists seat, score; auto | eauto].
      + split; [intros [? [=]] | intros (? & ? & [= <-] & Hsc); congruence].
    - split; [intros [? [=]] | intros (? & ? & [=] & _)]. }
  assert (Hhand :
    (exists decoded,
       traverse tile_id_to_mjai (get (hand_tiles st) []) = Ok decoded)
    <-> Forall decodable (get (hand_tiles st) [])).
  { rewrite traverse_succeeds_iff. apply Forall_iff. intros tile_id.
    symmetry. apply decodable_iff. }
  pose proof (py_index_is_Some 4 (get (player_wind st) 0)) as Hseat.
  split.
  - intros [ev H].
    destruct (tile_id_to_mjai (first_dora_or_zero st)) as [dora_marker|?]
      eqn:Hdora; [|discriminate H].
    cbn [bind] in H.
    destruct (traverse _ seat_keys) as [scores|?] eqn:Hscores;
      [|discriminate H].
    cbn [bind] in H.
    destruct (traverse tile_id_to_mjai (get (hand_tiles st) []))
      as [decoded|?] eqn:Hdecoded; [|discriminate H].
    cbn [bind] in H.
    destruct (py_index 4 (get (player_wind st) 0)) as [pos|] eqn:Hpos;
      [|discriminate H].
    split; [apply decodable_iff; eauto|].
    split; [apply Hseats; eauto|].
    split; [apply Hhand; eauto|].
    assert (Hin : is_Some (Some pos)) by eauto.
    apply Hseat in Hin. lia.
  - intros (Hd & Hs & Hh & Hr).
    apply decodable_iff in Hd as [dora_marker ->].
    apply Hseats in Hs as [scores ->].
    apply Hhand in Hh as [decoded ->].
    destruct (proj2 Hseat) as [pos ->]; [lia|].
    cbn [bind]. eauto.
Qed.

Lemma start_kyoku_event_succeeds_iff_witness :
  (exists ev,
     start_kyoku_event (sample_row hand13 (-1) (entry [8] [2])) = Ok ev)
  /\ ~ (exists ev,
          start_kyoku_event (sample_row (hand13 ++ [-1]) 2 (entry [8] [2]))
          = Ok ev).
Proof.
  split.
  - apply (start_kyoku_event_succeeds_iff
             (sample_row hand13 (-1) (entry [8] [2]))).
    split; [vm_compute; split; discriminate|].
    split; [repeat constructor; vm_compute; eauto|].
    split; [repeat constructor; vm_compute; discriminate|].
    vm_compute. split; discriminate.
  - intros Hev.
    apply (start_kyoku_event_succeeds_iff
             (sample_row (hand13 ++ [-1]) 2 (entry [8] [2]))) in Hev
      as (_ & _ & Hhand & _).
    apply Forall_app in Hhand as [_ Hlast].
    apply Forall_cons in Hlast as [[Hneg _] _]. apply Hneg. reflexivity.
Defined.

(** X12. For a hand of exactly 14 entries, the round-start event and the
    self-draw event together give back the whole decoded hand: the 13
    symbols dealt to the actor's seat followed by the drawn symbol are the
    decoding of [hand_tiles], in order. *)
Theorem dealt_hand_and_draw (st : Snapshot) (bakaze dora_marker : string)
    (kyoku' honba kyotaku oya' : Z) (scores : list Z)
    (tehais : list (list string)) (actor : Z) (pai : string) :
  start_kyoku_event st
  = Ok (StartKyoku bakaze dora_marker kyoku' honba kyotaku oya' scores
          tehais) ->
  tsumo_event st = Ok (Some (Tsumo actor pai)) ->
  length (get (hand_tiles st) []) = 14%nat ->
  exists pos concealed,
    py_index 4 actor = Some pos
    /\ tehais !! pos = Some concealed
    /\ length concealed = 13%nat
    /\ traverse tile_id_to_mjai (get (hand_tiles st) [])
       = Ok (concealed ++ [pai]).
Proof.
  intros Hstart Htsumo Hlen.
  apply tsumo_event_Some_inv in Htsumo
    as (_ & drawn & pai' & Hlast & Hpai & [= -> ->]).
  rewrite start_kyoku_event_steps in Hstart.
  apply bind_Ok_inv in Hstart as (dm & _ & Hstart).
  apply bind_Ok_inv in Hstart as (scores' & _ & Hstart).
  apply bind_Ok_inv in Hstart as (decoded & Hdecoded & Hstart).
  destruct (py_index 4 (get (player_wind st) 0)) as [pos|] eqn:Hpos;
    [|discriminate Hstart].
  injection Hstart as _ _ _ _ _ _ _ <-.
  apply last_Some in Hlast as [init Hinit].
  rewrite Hinit in Hdecoded, Hlen |- *.
  rewrite length_app in Hlen. cbn [length] in Hlen.
  pose proof Hdecoded as Hall.
  apply traverse_Forall2 in Hall.
  apply Forall2_app_inv_l in Hall as (d1 & d2 & Hd1 & Hd2 & ->).
  apply Forall2_length in Hd1.
  inversion Hd2 as [|? y ? ? Hy Hnil]; subst. inversion Hnil; subst.
  assert (y = pai') by congruence. subst y.
  exists pos, d1.
  destruct (py_index_Some _ _ _ Hpos) as (Hlt & _ & _).
  split; [reflexivity|]. split; [|split; [lia | exact Hdecoded]].
  rewrite list_lookup_insert_eq by exact Hlt.
  f_equal. unfold pad13. rewrite length_app. cbn [length].
  replace (13 - (length d1 + 1))%nat with 0%nat by lia.
  cbn [replicate]. rewrite app_nil_r.
  rewrite take_app_length' by lia. reflexivity.
Qed.

Lemma dealt_hand_and_draw_witness :
  exists pos concealed,
    py_index 4 2 = Some pos
    /\ traverse tile_id_to_mjai hand14 = Ok (concealed ++ ["3m"])
    /\ length concealed = 13%nat.
Proof.
  destruct (start_kyoku_event (sample_row hand14 2 (entry [8] [2])))
    as [[| b d k h ky o sc te | | | | | | | | | | |]|] eqn:Hstart;
    try (vm_compute in Hstart; discriminate Hstart).
  destruct (dealt_hand_and_draw (sample_row hand14 2 (entry [8] [2]))
              b d k h ky o sc te 2 "3m" Hstart eq_refl eq_refl)
    as (pos & concealed & Hpos & _ & Hlen & Hhand).
  exists pos, concealed. auto.
Defined.

(** ** Rows: which tables convert *)

(** X13. No row of the Skip table converts: its builder takes one argument
    and the row loop passes two.  When the self-draw and round-start events
    of the row can be built, the error is that [TypeError]. *)
Theorem skip_rows_never_convert (payload : Snapshot) :
  (exists e, row_events "Skip" payload = Raise e)
  /\ (forall tsumo start_kyoku,
        tsumo_event payload = Ok tsumo ->
        start_kyoku_event payload = Ok start_kyoku ->
        row_events "Skip" payload
        = Raise (TypeError ("skip_conversion() takes 1 positional argument"
                            +:+ " but 2 were given"))).
Proof.
  split; [apply row_events_Skip_raises|].
  intros tsumo start_kyoku Htsumo Hstart.
  unfold row_events. rewrite Htsumo, Hstart. cbn [bind].
  change (dict_getitem ACTION_BUILDERS "Skip")
    with (Ok (Def1 "skip_conversion" skip_conversion) : result callable).
  cbn [bind].
  destruct tsumo as [ev|]; [|reflexivity].
  apply tsumo_event_Some_inv in Htsumo as (_ & drawn & pai & _ & _ & ->).
  reflexivity.
Qed.

Lemma skip_rows_never_convert_witness :
  exists msg,
    row_events "Skip" (sample_row hand14 2 (entry [8] [2]))
    = Raise (TypeError msg).
Proof.
  destruct (start_kyoku_event (sample_row hand14 2 (entry [8] [2])))
    as [sk|] eqn:Hstart; [|vm_compute in Hstart; discriminate Hstart].
  destruct (skip_rows_never_convert (sample_row hand14 2 (entry [8] [2])))
    as [_ Htype].
  eexists. exact (Htype _ sk eq_refl Hstart).
Defined.

(** X14. A row converts only under one of the seven table names Discard,
    Chi, Pon, DaiMinKan, ShouMinKan, AnKan and Riichi (compared exactly,
    case included); under a name that is not a key of [ACTION_BUILDERS] the
    row raises [KeyError] with that name as soon as its self-draw event has
    been built. *)
Theorem row_events_table_names (table' : string) (payload : Snapshot) :
  (forall events,
     row_events table' payload = Ok events -> table' ∈ convertible_tables)
  /\ (table' ∉ map fst ACTION_BUILDERS ->
      forall tsumo,
        tsumo_event payload = Ok tsumo ->
        row_events table' payload = Raise (KeyError table')).
Proof.
  split.
  - intros events H.
    apply row_events_inv in H
      as (tsumo & builder & sk & tile & evs & ry & _ & Hb & _ & _ & Hcall & _).
    revert Hb. unfold ACTION_BUILDERS, convertible_tables. cbn [dict_getitem].
    repeat match goal with
    | |- context [String.eqb ?k table'] =>
        destruct (String.eqb_spec k table') as [<-|_]
    end; intros [= <-]; try discriminate Hcall; repeat constructor.
  - intros Hnot tsumo Htsumo.
    unfold row_events. rewrite Htsumo. cbn [bind].
    assert (Hb : dict_getitem ACTION_BUILDERS table' = Raise (KeyError table')).
    { revert Hnot. unfold ACTION_BUILDERS. cbn [dict_getitem map fst].
      intros Hnot.
      repeat match goal with
      | |- context [String.eqb ?k table'] =>
          destruct (String.eqb_spec k table') as [<-|_];
            [exfalso; apply Hnot; repeat constructor|]
      end.
      reflexivity. }
    rewrite Hb. reflexivity.
Qed.

Lemma row_events_table_names_witness :
  "Riichi" ∈ convertible_tables
  /\ row_events "discard" (sample_row hand14 2 (entry [8] [2]))
     = Raise (KeyError "discard").
Proof.
  destruct (row_events_table_names "Riichi"
              (sample_row hand14 2 (entry [8] [2]))) as [Hin _].
  destruct (row_events_table_names "discard"
              (sample_row hand14 2 (entry [8] [2]))) as [_ Hkey].
  split.
  - destruct (row_events "Riichi" (sample_row hand14 2 (entry [8] [2])))
      as [events|] eqn:Hrow; [|vm_compute in Hrow; discriminate Hrow].
    exact (Hin events eq_refl).
  - apply (fun Hnot => Hkey Hnot _ eq_refl).
    vm_compute. intros H.
    repeat (apply elem_of_cons in H as [H|H]; [discriminate H|]).
    apply elem_of_nil in H. exact H.
Defined.

(** ** Exporter: what is written *)

Section ExportedLines.

Context {Blob : Type}.
Variable decompress_loads : Blob -> result Snapshot.
Variable dumps : Event -> string.







End ExportedLines.



(** ** Hands longer than 14 entries *)

Lemma traverse_app {A B} (f : A -> result B) (xs ys : list A) :
  traverse f (xs ++ ys)
  = (try xs' <- traverse f xs; try ys' <- traverse f ys; Ok (xs' ++ ys')).
Proof.
  induction xs as [|x xs IH]; cbn [app traverse bind].
  - destruct (traverse f ys); reflexivity.
  - destruct (f x) as [y|e]; [|reflexivity]. cbn [bind]. rewrite IH.
    destruct (traverse f xs) as [xs'|e]; [|reflexivity]. cbn [bind].
    destruct (traverse f ys) as [ys'|e]; reflexivity.
Qed.

Lemma call2_ignores_hand (table' : string) (builder : callable)
    (st : Snapshot) (hand hand' : list Z) (tile : option string) :
  dict_getitem ACTION_BUILDERS table' = Ok builder ->
  call2 builder (with_hand_tiles st hand) tile
  = call2 builder (with_hand_tiles st hand') tile.
Proof.
  unfold ACTION_BUILDERS. cbn [dict_getitem].
  repeat match goal with
  | |- context [String.eqb ?k table'] =>
      destruct (String.eqb_spec k table') as [<-|_]
  end; intros [= <-]; reflexivity.
Qed.

Lemma pad13_app_13 (dealt more : list string) :
  length dealt = 13%nat -> pad13 (dealt ++ more) = dealt.
Proof.
  intros Hlen. unfold pad13. rewrite length_app.
  replace (13 - (length dealt + length more))%nat with 0%nat by lia.
  cbn [replicate]. rewrite app_nil_r.
  rewrite take_app_length' by lia. reflexivity.
Qed.

(** X18. Hand entries between the 13th and the last one never reach the
    output: with 13 dealt entries, any run of tile ids of 0..135 after them
    and a last entry, the row converts to the same events (or fails with the
    same error) as the row whose hand is the 13 dealt entries and the last
    entry alone. *)
Theorem hand_entries_between_are_dropped (table' : string) (st : Snapshot)
    (dealt middle : list Z) (drawn : Z) :
  length dealt = 13%nat ->
  Forall decodable middle ->
  row_events table' (with_hand_tiles st (dealt ++ middle ++ [drawn]))
  = row_events table' (with_hand_tiles st (dealt ++ [drawn])).
Proof.
  intros Hlen Hmiddle.
  set (long := dealt ++ middle ++ [drawn]).
  set (short := dealt ++ [drawn]).
  assert (Htsumo : tsumo_event (with_hand_tiles st long)
                   = tsumo_event (with_hand_tiles st short)).
  { unfold tsumo_event. cbn [with_hand_tiles hand_tiles player_wind get].
    assert (Hl : (length long <=? 13)%nat = false).
    { apply Nat.leb_gt. unfold long. rewrite !length_app. cbn [length]. lia. }
    assert (Hs : (length short <=? 13)%nat = false).
    { apply Nat.leb_gt. unfold short. rewrite !length_app. cbn [length]. lia. }
    rewrite Hl, Hs.
    rewrite (list_getitem_last long drawn)
      by (unfold long; rewrite app_assoc; apply last_snoc).
    rewrite (list_getitem_last short drawn) by apply last_snoc.
    reflexivity. }
  assert (Hstart : start_kyoku_event (with_hand_tiles st long)
                   = start_kyoku_event (with_hand_tiles st short)).
  { rewrite !start_kyoku_event_steps.
    cbn [with_hand_tiles hand_tiles player_wind get round_wind kyoku
           num_honba num_riichi oya seats].
    change (first_dora_or_zero (with_hand_tiles st long))
      with (first_dora_or_zero st).
    change (first_dora_or_zero (with_hand_tiles st short))
      with (first_dora_or_zero st).
    destruct (tile_id_to_mjai (first_dora_or_zero st)) as [dora|e];
      [|reflexivity].
    cbn [bind].
    destruct (traverse _ seat_keys) as [scores|e]; [|reflexivity].
    cbn [bind]. unfold long, short. rewrite !traverse_app.
    destruct (traverse tile_id_to_mjai dealt) as [d1|e] eqn:Hd1;
      [|reflexivity].
    apply traverse_length in Hd1. cbn [bind].
    destruct (Forall_decodable_traverse middle Hmiddle) as [dm ->].
    cbn [bind].
    destruct (traverse tile_id_to_mjai [drawn]) as [dl|e]; [|reflexivity].
    cbn [bind].
    rewrite !pad13_app_13 by lia. reflexivity. }
  unfold row_events. rewrite Htsumo, Hstart.
  destruct (tsumo_event (with_hand_tiles st short)) as [tsumo|e];
    [|reflexivity].
  cbn [bind].
  destruct (dict_getitem ACTION_BUILDERS table') as [builder|e] eqn:Hb;
    [|reflexivity].
  cbn [bind].
  destruct (start_kyoku_event (with_hand_tiles st short)) as [sk|e];
    [|reflexivity].
  cbn [bind].
  destruct (match tsumo with
            | Some ev => try pai <- event_pai ev; Ok (Some pai)
            | None => Ok None
            end) as [tile|e]; [|reflexivity].
  cbn [bind].
  rewrite (call2_ignores_hand table' builder st long short tile Hb).
  reflexivity.
Qed.

Lemma hand_entries_between_are_dropped_witness :
  row_events "Discard"
    (with_hand_tiles (sample_row [] 2 (entry [8] [2]))
       (hand13 ++ [100; 101] ++ [8]))
  = row_events "Discard"
      (with_hand_tiles (sample_row [] 2 (entry [8] [2])) (hand13 ++ [8])).
Proof.
  apply (hand_entries_between_are_dropped "Discard"
           (sample_row [] 2 (entry [8] [2])) hand13 [100; 101] 8).
  - reflexivity.
  - repeat constructor; discriminate.
Defined.
